(** * A shallow embedding of [custom_components/dingz/api_v2.py]

    The module is a typed HTTP client for the dingz local REST API: data
    classes decoded from JSON ([FromJSON] subclasses with [_from_json]
    pre-processing hooks and derived properties) and the session object
    [DingzSessionV2] with one coroutine per endpoint.

    Python is dynamically typed, so the embedding works over one universe
    of run-time values ([Py.value]); exceptions are results ([Py.outcome]);
    logging and the requests handed to the transport are threaded through
    a small state-and-exception monad ([M]). *)

From Stdlib Require Import ZArith List String Ascii Bool Lia.
From Stdlib Require Import SpecFloat DecimalString.
Import ListNotations.

Set Warnings "-register-all".

Local Open Scope string_scope.
Local Open Scope Z_scope.

(** ** Python run-time values *)

Module Py.

(** JSON values as [resp.json()] yields them, plus data-class instances.
    A [dict] keeps insertion order, hence an association list; a [float]
    is an IEEE-754 binary64 value. *)
Inductive value : Type :=
| VNone
| VBool (b : bool)
| VInt (z : Z)
| VFloat (f : spec_float)
| VStr (s : string)
| VList (l : list value)
| VDict (d : list (string * value))
| VObj (qualname : string) (attrs : list (string * value)).

Definition dict := list (string * value).

Inductive exn_kind : Type :=
| KeyError
| TypeError
| AttributeError
| IndexError
| ValueError
| OverflowError
| StopIteration
| RuntimeError
| ClientError.

(** An exception object: its class, its [__cause__] and the [_handled]
    attribute that [from_json] sets on it ([getattr(e, "_handled", False)]). *)
Record exn : Type := mkExn {
  kind : exn_kind;
  cause : option exn_kind;
  _handled : bool
}.

Definition new_exn (k : exn_kind) : exn := mkExn k None false.

(** [e._handled = True] *)
Definition mark_handled (e : exn) : exn := mkExn (kind e) (cause e) true.

(** [raise e from None]: the same exception object, its cause cleared. *)
Definition from_None (e : exn) : exn := mkExn (kind e) None (_handled e).

Inductive outcome (A : Type) : Type :=
| Return (a : A)
| Raise (e : exn).

Arguments Return {A} a.
Arguments Raise {A} e.

Definition exn_kind_eqb (a b : exn_kind) : bool :=
  match a, b with
  | KeyError, KeyError | TypeError, TypeError
  | AttributeError, AttributeError | IndexError, IndexError
  | ValueError, ValueError | OverflowError, OverflowError
  | StopIteration, StopIteration | RuntimeError, RuntimeError
  | ClientError, ClientError => true
  | _, _ => false
  end.

Definition and_then {A B} (o : outcome A) (k : A -> outcome B) : outcome B :=
  match o with
  | Return a => k a
  | Raise e => Raise e
  end.

(** [x is None] *)
Definition is_None (v : value) : bool :=
  match v with VNone => true | _ => false end.

Definition float_is_zero (f : spec_float) : bool :=
  match f with S754_zero _ => true | _ => false end.

(** [bool(x)]; a data-class instance defines neither [__bool__] nor
    [__len__] and is true. *)
Definition truthy (v : value) : bool :=
  match v with
  | VNone => false
  | VBool b => b
  | VInt z => negb (z =? 0)
  | VFloat f => negb (float_is_zero f)
  | VStr s => negb (String.eqb s EmptyString)
  | VList l => match l with [] => false | _ => true end
  | VDict d => match d with [] => false | _ => true end
  | VObj _ _ => true
  end.

(** *** dict operations *)

Fixpoint dict_get (k : string) (d : dict) : option value :=
  match d with
  | [] => None
  | (k', v) :: d' => if String.eqb k k' then Some v else dict_get k d'
  end.

(** [d[k] = v]: an existing key keeps its position, a new one goes last. *)
Fixpoint dict_set (k : string) (v : value) (d : dict) : dict :=
  match d with
  | [] => [(k, v)]
  | (k', v') :: d' =>
      if String.eqb k k' then (k', v) :: d' else (k', v') :: dict_set k v d'
  end.

Fixpoint dict_del (k : string) (d : dict) : dict :=
  match d with
  | [] => []
  | (k', v') :: d' =>
      if String.eqb k k' then dict_del k d' else (k', v') :: dict_del k d'
  end.

(** [list(d.values())] *)
Definition dict_values (d : dict) : list value := map snd d.

(** *** Subscription, attributes, length *)

(** [l[i]] with Python's negative indices. *)
Definition list_index (l : list value) (i : Z) : option value :=
  let n := Z.of_nat (List.length l) in
  if (0 <=? i) && (i <? n) then nth_error l (Z.to_nat i)
  else if (- n <=? i) && (i <? 0) then nth_error l (Z.to_nat (n + i))
  else None.

(** [s[i]] on a [str]: the one-character string at that position. *)
Definition str_index (s : string) (i : Z) : option value :=
  let n := Z.of_nat (String.length s) in
  let at_ (k : Z) := match String.get (Z.to_nat k) s with
                     | Some c => Some (VStr (String c EmptyString))
                     | None => None
                     end in
  if (0 <=? i) && (i <? n) then at_ i
  else if (- n <=? i) && (i <? 0) then at_ (n + i)
  else None.

(** [x[key]] *)
Definition getitem (x key : value) : outcome value :=
  match x, key with
  | VDict d, VStr k =>
      match dict_get k d with
      | Some v => Return v
      | None => Raise (new_exn KeyError)
      end
  | VDict _, _ => Raise (new_exn KeyError)
  | VList l, VInt i =>
      match list_index l i with
      | Some v => Return v
      | None => Raise (new_exn IndexError)
      end
  | VList l, VBool b =>
      match list_index l (if b then 1 else 0) with
      | Some v => Return v
      | None => Raise (new_exn IndexError)
      end
  | VStr s, VInt i =>
      match str_index s i with
      | Some v => Return v
      | None => Raise (new_exn IndexError)
      end
  | VStr s, VBool b =>
      match str_index s (if b then 1 else 0) with
      | Some v => Return v
      | None => Raise (new_exn IndexError)
      end
  | _, _ => Raise (new_exn TypeError)
  end.

(** [x[key] = v] for a string key; returns the object's new state. *)
Definition setitem (x : value) (k : string) (v : value) : outcome value :=
  match x with
  | VDict d => Return (VDict (dict_set k v d))
  | _ => Raise (new_exn TypeError)
  end.

(** [x.pop(k)] for a string key: the popped value and the new state. *)
Definition pop (x : value) (k : string) : outcome (value * value) :=
  match x with
  | VDict d =>
      match dict_get k d with
      | Some v => Return (v, VDict (dict_del k d))
      | None => Raise (new_exn KeyError)
      end
  | VList _ => Raise (new_exn TypeError)
  | _ => Raise (new_exn AttributeError)
  end.

(** [x.copy()], a shallow copy; only [dict] and [list] have the method. *)
Definition copy (x : value) : outcome value :=
  match x with
  | VDict d => Return (VDict d)
  | VList l => Return (VList l)
  | _ => Raise (new_exn AttributeError)
  end.

(** [len(x)] *)
Definition len (x : value) : outcome Z :=
  match x with
  | VDict d => Return (Z.of_nat (List.length d))
  | VList l => Return (Z.of_nat (List.length l))
  | VStr s => Return (Z.of_nat (String.length s))
  | _ => Raise (new_exn TypeError)
  end.

(** [x.values()] *)
Definition values (x : value) : outcome (list value) :=
  match x with
  | VDict d => Return (dict_values d)
  | _ => Raise (new_exn AttributeError)
  end.

(** [next(iter(xs))] *)
Definition next_iter (xs : list value) : outcome value :=
  match xs with
  | v :: _ => Return v
  | [] => Raise (new_exn StopIteration)
  end.

(** [x.name] on an instance. *)
Definition getattr (x : value) (name : string) : outcome value :=
  match x with
  | VObj _ attrs =>
      match dict_get name attrs with
      | Some v => Return v
      | None => Raise (new_exn AttributeError)
      end
  | _ => Raise (new_exn AttributeError)
  end.

(** *** Numbers *)

(** [str(n)] for an [int]. *)
Definition str_int (n : Z) : string := NilZero.string_of_int (Z.to_int n).

(** The numbers a caller passes where the signature says [float]. *)
Inductive num : Type :=
| NInt (z : Z)
| NFloat (f : spec_float).

(** Nearest integer to [m / d], ties to the even one ([0 < d]). *)
Definition div_half_even (m d : Z) : Z :=
  let q := m / d in
  let r := m mod d in
  if 2 * r <? d then q
  else if d <? 2 * r then q + 1
  else if Z.even q then q else q + 1.

(** [round(x)] with one argument: an [int] is returned unchanged; a
    [float] goes to the nearest integer, ties to even; [inf] raises
    [OverflowError] and [nan] raises [ValueError]. *)
Definition round (x : num) : outcome Z :=
  match x with
  | NInt z => Return z
  | NFloat (S754_zero _) => Return 0
  | NFloat (S754_infinity _) => Raise (new_exn OverflowError)
  | NFloat S754_nan => Raise (new_exn ValueError)
  | NFloat (S754_finite s m e) =>
      let mag := if 0 <=? e then Zpos m * 2 ^ e
                 else div_half_even (Zpos m) (2 ^ (- e)) in
      Return (if s then - mag else mag)
  end.

(** ["sep".join(parts)] *)
Definition join (sep : string) (parts : list string) : string :=
  String.concat sep parts.

End Py.

Import Py.

(** ** Effects: the log and the transport *)

Inductive level : Type := DEBUG | WARNING | ERROR.

(** A record handed to [logger]: level, the literal part of the message
    and the values formatted into it. *)
Record log_record : Type := mkLog {
  log_level : level;
  log_text : string;
  log_args : list value
}.

Inductive http_method : Type := GET | POST.

(** What the client hands to [aiohttp.ClientSession.get] / [.post]. *)
Record request : Type := mkRequest {
  req_method : http_method;
  req_url : string;
  req_body : option string;
  req_headers : list (string * string)
}.

(** What the transport gives back: the status and the result of
    [await resp.json()]. *)
Record response : Type := mkResponse {
  status : Z;
  json : outcome value
}.

(** The observable state: the log so far and the requests sent so far,
    oldest first. *)
Record world : Type := mkWorld {
  logged : list log_record;
  sent : list request
}.

Definition M (A : Type) : Type := world -> outcome A * world.

Definition ret {A} (a : A) : M A := fun w => (Return a, w).

Definition raise {A} (e : exn) : M A := fun w => (Raise e, w).

Definition bind {A B} (m : M A) (k : A -> M B) : M B :=
  fun w =>
    match m w with
    | (Return a, w') => k a w'
    | (Raise e, w') => (Raise e, w')
    end.

Definition lift {A} (o : outcome A) : M A := fun w => (o, w).

(** [try: m  except Exception as e: h e] *)
Definition try_except {A} (m : M A) (h : exn -> M A) : M A :=
  fun w =>
    match m w with
    | (Return a, w') => (Return a, w')
    | (Raise e, w') => h e w'
    end.

Definition emit (l : level) (text : string) (args : list value) : M unit :=
  fun w => (Return tt, mkWorld (logged w ++ [mkLog l text args])%list (sent w)).

Declare Scope py_scope.
Delimit Scope py_scope with py.
Notation "x <- m ;; k" := (bind m (fun x => k))
  (at level 61, m at next level, right associativity) : py_scope.
Notation "m ;;; k" := (bind m (fun _ => k))
  (at level 61, right associativity) : py_scope.
Notation "'let!' x := o 'in' k" := (and_then o (fun x => k))
  (at level 10, x name, o at level 100, k at level 200) : py_scope.
Local Open Scope py_scope.

(** An [async def] body run to completion: a [StopIteration] that would
    leave the coroutine is replaced by a [RuntimeError] whose cause it is
    (PEP 479). *)
Definition coroutine {A} (body : M A) : M A :=
  try_except body (fun e =>
    if exn_kind_eqb (kind e) StopIteration
    then raise (mkExn RuntimeError (Some StopIteration) false)
    else raise e).

(** ** The base class [FromJSON] and data-class construction *)

(** A class decorated with [@dataclasses.dataclass()]: its [__qualname__]
    and its fields in declaration order, each with its default if it has
    one. *)
Record dataclass : Type := mkClass {
  qualname : string;
  fields : list (string * option value)
}.

Definition required (name : string) : string * option value := (name, None).

(** A field declared [name: Optional[...] = None]. *)
Definition optional (name : string) : string * option value :=
  (name, Some VNone).

Module FromJSON.

Definition declared (cls : dataclass) (name : string) : bool :=
  existsb (String.eqb name) (map fst (fields cls)).

Fixpoint bind_fields (fs : list (string * option value)) (kwargs : dict)
  : option dict :=
  match fs with
  | [] => Some []
  | (name, default) :: fs' =>
      let arg := match dict_get name kwargs with
                 | Some v => Some v
                 | None => default
                 end in
      match arg, bind_fields fs' kwargs with
      | Some v, Some attrs => Some ((name, v) :: attrs)
      | _, _ => None
      end
  end.

(** [cls] called with keyword arguments, that is the [__init__] that
    [dataclasses] generates: an
    undeclared keyword or a missing field without default is a
    [TypeError]; field types are not checked. *)
Definition init (cls : dataclass) (kwargs : dict) : outcome value :=
  if forallb (fun kv => declared cls (fst kv)) kwargs then
    match bind_fields (fields cls) kwargs with
    | Some attrs => Return (VObj (qualname cls) attrs)
    | None => Raise (new_exn TypeError)
    end
  else Raise (new_exn TypeError).

(** Modelled from the spec: [FromJSON._from_json] of module [.api], which
    is not part of the sources at hand. It is the generic field-by-field
    pass that every [_from_json] hook of this file ends with
    ([super()._from_json(data)]): the entries of the mapping become the
    fields of the instance, a missing required field fails and a missing
    optional field stays absent. Something that is not a mapping cannot
    be decoded. *)
Definition _from_json (cls : dataclass) (data : value) : M value :=
  match data with
  | VDict d => lift (init cls d)
  | _ => raise (new_exn TypeError)
  end.

(** Modelled from the spec: [FromJSON.from_json] of module [.api]
    ([Decode<T>]): the class's [_from_json] hook runs on a working copy of
    the mapping; a failure is logged once, at the level closest to it
    (the exception remembers that it was logged), and propagated
    unchanged. [SensorsV2.PIR.from_json] below is the override that adds
    the test for [None]. *)
Definition from_json (cls : dataclass) (hook : value -> M value)
    (data : value) : M value :=
  try_except
    (d <- lift (copy data) ;; hook d)
    (fun e =>
       if negb (_handled e) then
         emit ERROR ("failed to create `" ++ qualname cls ++ "` from JSON: ")
              [data] ;;;
         raise (from_None (mark_handled e))
       else raise (from_None e)).

Fixpoint map_M (f : value -> M value) (l : list value) : M (list value) :=
  match l with
  | [] => ret []
  | x :: l' => y <- f x ;; ys <- map_M f l' ;; ret (y :: ys)
  end.

(** Modelled from the spec: [FromJSON.list_from_json] of module [.api]
    ([DecodeList<T>]): every entry of the sequence goes through the
    class's [from_json], in order; a failure on an entry fails the whole
    list. *)
Definition list_from_json (from_json : value -> M value) (data : value)
  : M value :=
  match data with
  | VList l => l' <- map_M from_json l ;; ret (VList l')
  | _ => raise (new_exn TypeError)
  end.

End FromJSON.

(** ** The data classes *)

Module ThermostatV2.

Definition cls : dataclass :=
  mkClass "ThermostatV2"
    [ required "active"; required "enabled"; required "target_temp";
      required "mode"; required "temp"; required "min_target_temp";
      required "max_target_temp" ].

Definition from_json : value -> M value :=
  FromJSON.from_json cls (FromJSON._from_json cls).

End ThermostatV2.

Module DimmerConfigV2.

Module Feedback.
Definition cls : dataclass :=
  mkClass "DimmerConfigV2.Feedback" [ required "color"; required "brightness" ].
End Feedback.

Module Light.

Module Dimmer.
Definition cls : dataclass :=
  mkClass "DimmerConfigV2.Light.Dimmer"
    [ required "type"; required "use_last_value" ].

Definition from_json : value -> M value :=
  FromJSON.from_json cls (FromJSON._from_json cls).
End Dimmer.

Definition cls : dataclass :=
  mkClass "DimmerConfigV2.Light" [ required "dimmable"; required "dimmer" ].

Definition _from_json (data : value) : M value :=
  raw <- lift (getitem data (VStr "dimmer")) ;;
  dimmer <- Dimmer.from_json raw ;;
  data <- lift (setitem data "dimmer" dimmer) ;;
  FromJSON._from_json cls data.

Definition from_json : value -> M value :=
  FromJSON.from_json cls _from_json.

End Light.

Definition cls : dataclass :=
  mkClass "DimmerConfigV2"
    [ required "name"; required "feedback"; optional "light" ].

(** [self.light is not None and self.light.dimmable] *)
Definition dimmable (self : value) : outcome value :=
  let! light := getattr self "light" in
  if negb (is_None light) then getattr light "dimmable"
  else Return (VBool false).

(** [self.light is not None and self.light.dimmer.type] *)
Definition output (self : value) : outcome value :=
  let! light := getattr self "light" in
  if negb (is_None light) then
    let! dimmer := getattr light "dimmer" in
    getattr dimmer "type"
  else Return (VBool false).

(** [bool(self.name)]; the source keeps the former second conjunct as a
    comment: [# API 2: and self.output != DIMMER_NOT_CONNECTED]. *)
Definition available (self : value) : outcome value :=
  let! name := getattr self "name" in
  Return (VBool (truthy name)).

Definition _from_json (data : value) : M value :=
  raw <- lift (getitem data (VStr "light")) ;;
  light <- Light.from_json raw ;;
  data <- lift (setitem data "light" light) ;;
  FromJSON._from_json cls data.

Definition from_json : value -> M value :=
  FromJSON.from_json cls _from_json.

End DimmerConfigV2.

Module SystemConfigV2.

Module Time.
Definition cls : dataclass :=
  mkClass "SystemConfigV2.Time" [ required "hour"; required "minute" ].

Definition from_json : value -> M value :=
  FromJSON.from_json cls (FromJSON._from_json cls).
End Time.

Module DynLight.

Module SunOffset.
Definition cls : dataclass :=
  mkClass "SystemConfigV2.DynLight.SunOffset"
    [ required "day"; required "twilight"; required "night" ].

Definition from_json : value -> M value :=
  FromJSON.from_json cls (FromJSON._from_json cls).
End SunOffset.

Definition cls : dataclass :=
  mkClass "SystemConfigV2.DynLight"
    [ required "enable"; required "phases"; required "source";
      required "sun_offset" ].

Definition _from_json (data : value) : M value :=
  raw <- lift (getitem data (VStr "sun_offset")) ;;
  sun_offset <- SunOffset.from_json raw ;;
  data <- lift (setitem data "sun_offset" sun_offset) ;;
  FromJSON._from_json cls data.

Definition from_json : value -> M value :=
  FromJSON.from_json cls _from_json.

End DynLight.

Definition cls : dataclass :=
  mkClass "SystemConfigV2"
    [ required "allow_reset"; required "allow_wps"; required "allow_reboot";
      required "allow_remote_reboot"; required "protected_status";
      required "id"; required "lat"; required "long"; required "wifi_ps";
      required "tzid"; required "origin"; required "upgrade_blink";
      required "reboot_blink"; required "dingz_name"; required "room_name";
      required "temp_offset"; required "time"; required "system_status";
      required "fet_offset"; required "cpu_offset";
      optional "token"; optional "mdns_search_period"; optional "groups";
      optional "temp_comp"; optional "dyn_light"; optional "sunrise";
      optional "sunset" ].

Section Imported.

(** [TempComp] is imported from [.api]; its [from_json] is a parameter. *)
Variable TempComp_from_json : value -> M value.

Definition _from_json (data : value) : M value :=
  raw <- lift (getitem data (VStr "sunrise")) ;;
  sunrise <- Time.from_json raw ;;
  data <- lift (setitem data "sunrise" sunrise) ;;
  raw <- lift (getitem data (VStr "sunset")) ;;
  sunset <- Time.from_json raw ;;
  data <- lift (setitem data "sunset" sunset) ;;
  raw <- lift (getitem data (VStr "dyn_light")) ;;
  dyn_light <- DynLight.from_json raw ;;
  data <- lift (setitem data "dyn_light" dyn_light) ;;
  data <- match pop data "temp_comp" with
          | Raise e =>
              (* except KeyError: pass *)
              if exn_kind_eqb (kind e) KeyError then ret data else raise e
          | Return (raw_temp_comp, data) =>
              temp_comp <- TempComp_from_json raw_temp_comp ;;
              lift (setitem data "temp_comp" temp_comp)
          end ;;
  FromJSON._from_json cls data.

Definition from_json : value -> M value :=
  FromJSON.from_json cls _from_json.

End Imported.

End SystemConfigV2.

Module SensorsV2.

Module PIR.
Definition cls : dataclass :=
  mkClass "SensorsV2.PIR"
    [ required "enabled"; required "motion"; required "mode";
      required "light_off_timer"; required "suspend_timer" ].

Definition from_json (data : value) : M value :=
  if is_None data then ret VNone
  else
    try_except
      (d <- lift (copy data) ;; FromJSON._from_json cls d)
      (fun e =>
         if negb (_handled e) then
           emit ERROR
             ("failed to create `" ++ qualname cls ++ "` from JSON: ")
             [data] ;;;
           raise (from_None (mark_handled e))
         else raise (from_None e)).

Definition list_from_json : value -> M value :=
  FromJSON.list_from_json from_json.
End PIR.

Definition cls : dataclass :=
  mkClass "SensorsV2"
    [ required "brightness"; required "light_state";
      required "light_state_lpf"; required "cpu_temperature";
      required "puck_temperature"; required "fet_temperature";
      required "pirs"; required "input_state"; required "power_outputs";
      optional "room_temperature"; optional "uncompensated_temperature";
      optional "temp_offset"; optional "light_off_timer";
      optional "suspend_timer" ].

(** The current status of motion. *)
Definition person_present (self : value) : outcome value :=
  let! pirs := getattr self "pirs" in
  let! pir0 := getitem pirs (VInt 0) in
  if negb (is_None pir0) then getattr pir0 "motion"
  else
    let! pirs := getattr self "pirs" in
    let! pir1 := getitem pirs (VInt 1) in
    if negb (is_None pir1) then getattr pir1 "motion"
    else Return VNone.

(** [for i, out in enumerate(power_outputs): power_outputs[i] = out["value"]]
    on a list. The list object is changed in place, entry by entry:
    [visited] holds the entries already replaced, [rest] those still to
    visit, and the second component is the state of the list when the
    loop ends or raises. *)
Fixpoint unwrap_loop (visited rest : list value) : outcome unit * list value :=
  match rest with
  | [] => (Return tt, visited)
  | out :: rest' =>
      match getitem out (VStr "value") with
      | Return x => unwrap_loop (visited ++ [x])%list rest'
      | Raise e => (Raise e, (visited ++ out :: rest')%list)
      end
  end.

(** The same loop on whatever [data["power_outputs"]] holds. Enumerating a
    [str] or a [dict] yields strings, and ["..."["value"]] is a
    [TypeError]; a number, a data-class instance or [None] cannot be
    enumerated, a [TypeError] as well. *)
Definition unwrap_power_outputs (power_outputs : value) : outcome value :=
  match power_outputs with
  | VList l =>
      match unwrap_loop [] l with
      | (Return _, l') => Return (VList l')
      | (Raise e, _) => Raise e
      end
  | _ => Raise (new_exn TypeError)
  end.

Definition _from_json (data : value) : M value :=
  raw <- lift (getitem data (VStr "pirs")) ;;
  pirs <- PIR.list_from_json raw ;;
  data <- lift (setitem data "pirs" pirs) ;;
  power_outputs <- lift (getitem data (VStr "power_outputs")) ;;
  data <- (if truthy power_outputs then
             flat <- try_except
                       (lift (unwrap_power_outputs power_outputs))
                       (fun e =>
                          emit ERROR "failed to handle power outputs" [] ;;;
                          raise e) ;;
             (* the list inside [data] is the one the loop changed *)
             lift (setitem data "power_outputs" flat)
           else ret data) ;;
  FromJSON._from_json cls data.

(** The working copy is shallow: the list under [power_outputs] is the
    caller's, and the loop of the hook rewrites it in place. Values here
    are not shared, so a record logged on a failed decode carries the
    mapping as it was received, not with that list as the loop left it
    ([unwrap_loop] gives that state). *)
Definition from_json : value -> M value :=
  FromJSON.from_json cls _from_json.

End SensorsV2.

Module StateV2.

Definition cls : dataclass :=
  mkClass "StateV2"
    [ required "dimmers"; required "blinds"; required "led";
      required "sensors"; required "thermostat"; required "wifi";
      required "config"; optional "time" ].

Section Imported.

(** [Dimmer], [Blind], [LED], [WiFi] and [Config] are imported from
    [.api]; their decoders are parameters. *)
Variable Dimmer_list_from_json : value -> M value.
Variable Blind_list_from_json : value -> M value.
Variable LED_from_json : value -> M value.
Variable WiFi_from_json : value -> M value.
Variable Config_from_json : value -> M value.

Definition _from_json (data : value) : M value :=
  raw <- lift (getitem data (VStr "dimmers")) ;;
  dimmers <- Dimmer_list_from_json raw ;;
  data <- lift (setitem data "dimmers" dimmers) ;;
  raw <- lift (getitem data (VStr "blinds")) ;;
  blinds <- Blind_list_from_json raw ;;
  data <- lift (setitem data "blinds" blinds) ;;
  raw <- lift (getitem data (VStr "led")) ;;
  led <- LED_from_json raw ;;
  data <- lift (setitem data "led" led) ;;
  raw <- lift (getitem data (VStr "sensors")) ;;
  sensors <- SensorsV2.from_json raw ;;
  data <- lift (setitem data "sensors" sensors) ;;
  raw <- lift (getitem data (VStr "thermostat")) ;;
  thermostat <- ThermostatV2.from_json raw ;;
  data <- lift (setitem data "thermostat" thermostat) ;;
  raw <- lift (getitem data (VStr "wifi")) ;;
  wifi <- WiFi_from_json raw ;;
  data <- lift (setitem data "wifi" wifi) ;;
  raw <- lift (getitem data (VStr "config")) ;;
  config <- Config_from_json raw ;;
  data <- lift (setitem data "config" config) ;;
  FromJSON._from_json cls data.

Definition from_json : value -> M value :=
  FromJSON.from_json cls _from_json.

End Imported.

End StateV2.

(** ** The session *)

(** A value of a keyword argument of a write operation: the operations
    of this file pass a [str] or an [int]. *)
Inductive param : Type :=
| PStr (s : string)
| PInt (z : Z).

(** The replacement field of an f-string on such a value. *)
Definition format (v : param) : string :=
  match v with
  | PStr s => s
  | PInt z => str_int z
  end.

Definition param_value (v : param) : value :=
  match v with
  | PStr s => VStr s
  | PInt z => VInt z
  end.

Module DingzSessionV2.

(** The two fields of the data class. The [aiohttp.ClientSession] is an
    external collaborator: it is represented by the answer it gives to
    each request (or the exception it raises). *)
Record t : Type := mk {
  session : request -> outcome response;
  host : string
}.

(** Hand a request to the transport and wait for the answer. *)
Definition send (self : t) (req : request) : M response :=
  fun w => (session self req, mkWorld (logged w) (sent w ++ [req])%list).

(** [resp.raise_for_status()] *)
Definition raise_for_status (resp : response) : M unit :=
  if 400 <=? status resp then raise (new_exn ClientError) else ret tt.

Definition _get (self : t) (path : string) : M value :=
  coroutine (
    resp <- send self (mkRequest GET (host self ++ "/api/v1" ++ path) None []) ;;
    lift (json resp)).

Definition __post_request (self : t) (path : string)
    (data : list (string * param)) : M response :=
  let headers : list (string * string) := [] in
  let '(body, headers) :=
    match data with
    | _ :: _ =>
        (* doing it by hand to avoid percent encoding *)
        (Some (join "&" (map (fun '(key, value) => key ++ "=" ++ format value)
                             data)),
         (headers ++ [("Content-Type", "application/x-www-form-urlencoded")])%list)
    | [] => (None, headers)
    end in
  emit DEBUG "POST %s | %s"
       [VStr path; match body with Some b => VStr b | None => VNone end] ;;;
  send self (mkRequest POST (host self ++ "/api/v1" ++ path) body headers).

Definition _post_json (self : t) (path : string)
    (data : list (string * param)) : M value :=
  coroutine (
    resp <- __post_request self path data ;;
    emit DEBUG "response: %s" [VInt (status resp)] ;;;
    lift (json resp)).

Definition _post_plain (self : t) (path : string)
    (data : list (string * param)) : M unit :=
  coroutine (
    resp <- __post_request self path data ;;
    emit DEBUG "response: %s" [VInt (status resp)] ;;;
    raise_for_status resp).

Section Imported.

(** [Device] is imported from [.api]; its [from_json] is a parameter. *)
Variable Device_from_json : value -> M value.

Definition device (self : t) : M value :=
  coroutine (
    raw <- _get self "/device" ;;
    n <- lift (len raw) ;;
    (if 1 <? n then emit WARNING "received more than one device: " [raw]
     else ret tt) ;;;
    device_raw <- try_except
                    (vs <- lift (values raw) ;; lift (next_iter vs))
                    (fun e =>
                       if exn_kind_eqb (kind e) StopIteration then
                         emit ERROR "empty device response" [] ;;;
                         raise e
                       else raise e) ;;
    Device_from_json device_raw).

End Imported.

Definition set_led (self : t) (state : option bool)
    (color : option (num * num * num)) : M unit :=
  coroutine (
    kwargs <- match color with
              | Some (h, s, v) =>
                  h <- lift (round h) ;;
                  s <- lift (round s) ;;
                  v <- lift (round v) ;;
                  ret [ ("color", PStr (str_int (h mod 360) ++ ";" ++
                                        str_int s ++ ";" ++ str_int v));
                        ("mode", PStr "hsv") ]
              | None => ret []
              end ;;
    let action := match state with
                  | None => "toggle"
                  | Some true => "on"
                  | Some false => "off"
                  end in
    _post_json self "/led/set" (("action", PStr action) :: kwargs) ;;;
    ret tt).

Definition set_dimmer (self : t) (index : Z) (state : bool)
    (value : option num) : M unit :=
  coroutine (
    kwargs <- match value with
              | Some value => n <- lift (round value) ;; ret [("value", PInt n)]
              | None => ret []
              end ;;
    let action := if state then "on" else "off" in
    _post_plain self ("/dimmer/" ++ str_int index ++ "/" ++ action) kwargs).

Definition set_blind_position (self : t) (index : Z) (position : num)
  : M unit :=
  coroutine (
    n <- lift (round position) ;;
    let kwargs := [("blind", PInt n)] in
    _post_plain self ("/shade/" ++ str_int index) kwargs).

Definition blind_down (self : t) (index : Z) : M unit :=
  coroutine (_post_plain self ("/shade/" ++ str_int index ++ "/down") []).

Definition blind_up (self : t) (index : Z) : M unit :=
  coroutine (_post_plain self ("/shade/" ++ str_int index ++ "/up") []).

Definition blind_stop (self : t) (index : Z) : M unit :=
  coroutine (_post_plain self ("/shade/" ++ str_int index ++ "/stop") []).

Section ImportedReads.

(** [Info], [BlindConfig], [PIRConfig] and [TempComp] are imported from
    [.api], as are the classes [StateV2] decodes its parts with; their
    decoders are parameters. *)
Variable Info_from_json : value -> M value.
Variable BlindConfig_list_from_json : value -> M value.
Variable PIRConfig_from_json : value -> M value.
Variable TempComp_from_json : value -> M value.
Variable Dimmer_list_from_json : value -> M value.
Variable Blind_list_from_json : value -> M value.
Variable LED_from_json : value -> M value.
Variable WiFi_from_json : value -> M value.
Variable Config_from_json : value -> M value.

Definition info (self : t) : M value :=
  coroutine (
    raw <- _get self "/info" ;;
    Info_from_json raw).

Definition state (self : t) : M value :=
  coroutine (
    raw <- _get self "/state" ;;
    StateV2.from_json Dimmer_list_from_json Blind_list_from_json
      LED_from_json WiFi_from_json Config_from_json raw).

Definition system_config (self : t) : M value :=
  coroutine (
    raw <- _get self "/system_config" ;;
    SystemConfigV2.from_json TempComp_from_json raw).

Definition dimmer_config (self : t) : M value :=
  coroutine (
    raw <- _get self "/dimmer_config" ;;
    dimmers <- lift (getitem raw (VStr "dimmers")) ;;
    FromJSON.list_from_json DimmerConfigV2.from_json dimmers).

Definition blind_config (self : t) : M value :=
  coroutine (
    raw <- _get self "/blind_config" ;;
    blinds <- lift (getitem raw (VStr "blinds")) ;;
    BlindConfig_list_from_json blinds).

Definition pir_config (self : t) : M value :=
  coroutine (
    raw <- _get self "/pir_config" ;;
    PIRConfig_from_json raw).

End ImportedReads.

End DingzSessionV2.

(** * Vocabulary of the statements *)

(** The declaration of a field: its default, if the class has the field. *)
Fixpoint declaration (name : string) (fs : list (string * option value))
  : option (option value) :=
  match fs with
  | [] => None
  | (name', default) :: fs' =>
      if String.eqb name name' then Some default else declaration name fs'
  end.


(** The request body as the specification words it: every parameter
    written [key=value], the parameters separated by [&], nothing
    escaped. *)
Fixpoint form_pairs (data : list (string * param)) : string :=
  match data with
  | [] => EmptyString
  | (key, v) :: rest =>
      match rest with
      | [] => key ++ "=" ++ format v
      | _ :: _ => key ++ "=" ++ format v ++ "&" ++ form_pairs rest
      end
  end.

(** The POST the specification describes for a path and a parameter set:
    body and [Content-Type] only when there are parameters. *)
Definition form_request (self : DingzSessionV2.t) (path : string)
    (data : list (string * param)) : request :=
  match data with
  | [] =>
      mkRequest POST (DingzSessionV2.host self ++ "/api/v1" ++ path) None []
  | _ :: _ =>
      mkRequest POST (DingzSessionV2.host self ++ "/api/v1" ++ path)
        (Some (form_pairs data))
        [("Content-Type", "application/x-www-form-urlencoded")]
  end.

(** The write operations of the session, as calls. *)
Inductive write_call : Type :=
| SetLed (state : option bool) (color : option (num * num * num))
| SetDimmer (index : Z) (state : bool) (value : option num)
| SetBlindPosition (index : Z) (position : num)
| BlindDown (index : Z)
| BlindUp (index : Z)
| BlindStop (index : Z).

Definition perform (self : DingzSessionV2.t) (c : write_call) : M unit :=
  match c with
  | SetLed state color => DingzSessionV2.set_led self state color
  | SetDimmer index state v => DingzSessionV2.set_dimmer self index state v
  | SetBlindPosition index position =>
      DingzSessionV2.set_blind_position self index position
  | BlindDown index => DingzSessionV2.blind_down self index
  | BlindUp index => DingzSessionV2.blind_up self index
  | BlindStop index => DingzSessionV2.blind_stop self index
  end.

(** The action parameter of [set_led]. *)
Definition led_action (state : option bool) : string :=
  match state with
  | None => "toggle"
  | Some true => "on"
  | Some false => "off"
  end.

(** The path and the parameter set of each write operation, as the
    specification lists them; [round] may raise before anything is
    sent. *)
Definition call_params (c : write_call)
  : outcome (string * list (string * param)) :=
  match c with
  | SetLed state None =>
      Return ("/led/set", [("action", PStr (led_action state))])
  | SetLed state (Some (h, s, v)) =>
      let! H := round h in
      let! S := round s in
      let! V := round v in
      Return ("/led/set",
              [ ("action", PStr (led_action state));
                ("color", PStr (str_int (H mod 360) ++ ";" ++ str_int S ++ ";" ++
                                str_int V));
                ("mode", PStr "hsv") ])
  | SetDimmer index state None =>
      Return ("/dimmer/" ++ str_int index ++ (if state then "/on" else "/off"),
              [])
  | SetDimmer index state (Some x) =>
      let! n := round x in
      Return ("/dimmer/" ++ str_int index ++ (if state then "/on" else "/off"),
              [("value", PInt n)])
  | SetBlindPosition index position =>
      let! n := round position in
      Return ("/shade/" ++ str_int index, [("blind", PInt n)])
  | BlindDown index => Return ("/shade/" ++ str_int index ++ "/down", [])
  | BlindUp index => Return ("/shade/" ++ str_int index ++ "/up", [])
  | BlindStop index => Return ("/shade/" ++ str_int index ++ "/stop", [])
  end.

(** The binary64 values of the literals [50.6], [100.4], [57.5] and
    [56.5] ([float.hex]: 0x1.94ccccccccccdp+5, 0x1.919999999999ap+6,
    0x1.cc00000000000p+5, 0x1.c400000000000p+5). *)
Definition float_50_6 : spec_float := S754_finite false 7121316910779597 (-47).
Definition float_100_4 : spec_float := S754_finite false 7065021915437466 (-46).
Definition float_57_5 : spec_float := S754_finite false 8092405580431360 (-47).
Definition float_56_5 : spec_float := S754_finite false 7951668092076032 (-47).

(** A session whose transport answers every request with status 200 and
    the given JSON document. *)
Definition answering (doc : value) (host : string) : DingzSessionV2.t :=
  DingzSessionV2.mk (fun _ => Return (mkResponse 200 (Return doc))) host.

(** A decoder that accepts any mapping and keeps its entries as the
    attributes of an instance of the named class; it stands for a class
    imported from [.api] where an example needs one. *)
Definition entries_as_attrs (qualname : string) (raw : value) : M value :=
  match raw with
  | VDict d => ret (VObj qualname d)
  | _ => raise (new_exn TypeError)
  end.

Definition idle : world := mkWorld [] [].

(** A mapping that a data class accepts as keyword arguments: every key
    names a field and every field without default has an entry. *)
Definition keys_declared (cls : dataclass) (d : dict) : bool :=
  forallb (fun kv => FromJSON.declared cls (fst kv)) d.

Definition required_present (fs : list (string * option value)) (d : dict)
  : bool :=
  forallb (fun f => match snd f, dict_get (fst f) d with
                    | None, None => false
                    | _, _ => true
                    end) fs.

Definition complete (cls : dataclass) (d : dict) : bool :=
  keys_declared cls d && required_present (fields cls) d.

(** The three nested decodes at the head of [SystemConfigV2._from_json]
    succeed on [d], started in [w]: they give [sunrise], [sunset] and
    [dyn_light] and leave the world [w3]. *)
Definition nested_decoded (d : dict) (w : world)
    (sunrise sunset dyn_light : value) (w3 : world) : Prop :=
  exists raw1 raw2 raw3 w1 w2,
    dict_get "sunrise" d = Some raw1 /\
    SystemConfigV2.Time.from_json raw1 w = (Return sunrise, w1) /\
    dict_get "sunset" d = Some raw2 /\
    SystemConfigV2.Time.from_json raw2 w1 = (Return sunset, w2) /\
    dict_get "dyn_light" d = Some raw3 /\
    SystemConfigV2.DynLight.from_json raw3 w2 = (Return dyn_light, w3).

(** An answer of [/system_config] from a firmware without temperature
    compensation. *)
Definition sample_system_config : dict :=
  [ ("allow_reset", VBool true); ("allow_wps", VBool true);
    ("allow_reboot", VBool true); ("allow_remote_reboot", VBool false);
    ("protected_status", VBool false); ("id", VBool false);
    ("lat", VStr "47.38"); ("long", VStr "8.54"); ("wifi_ps", VBool false);
    ("tzid", VInt 345); ("origin", VBool false);
    ("upgrade_blink", VBool true); ("reboot_blink", VBool true);
    ("dingz_name", VStr "dingz"); ("room_name", VStr "Office");
    ("temp_offset", VInt 0); ("time", VStr "2021-03-01 12:00:00");
    ("system_status", VStr "OK"); ("fet_offset", VInt (-20));
    ("cpu_offset", VInt (-10)); ("token", VNone);
    ("dyn_light",
     VDict [ ("enable", VBool false); ("phases", VInt 2);
             ("source", VStr "sun");
             ("sun_offset",
              VDict [("day", VInt 0); ("twilight", VInt 0); ("night", VInt 0)]) ]);
    ("sunrise", VDict [("hour", VInt 6); ("minute", VInt 58)]);
    ("sunset", VDict [("hour", VInt 18); ("minute", VInt 12)]) ].

Definition sample_temp_comp : value :=
  VDict [("fet_offset", VInt (-20)); ("gain_up", VInt 70)].

(** A power-output entry as the device sends it: [{"value": x}]. *)
Definition wrapped (x : value) : value := VDict [("value", x)].

(** The record that [SensorsV2.PIR.from_json] logs when a decode fails. *)
Definition pir_failure (data : value) : log_record :=
  mkLog ERROR "failed to create `SensorsV2.PIR` from JSON: " [data].

Definition log_append (w : world) (r : log_record) : world :=
  mkWorld (logged w ++ [r]) (sent w).

(** An answer of [/state], its [sensors] part. *)
Definition sample_pir : dict :=
  [ ("enabled", VBool true); ("motion", VBool false); ("mode", VStr "idle");
    ("light_off_timer", VInt 0); ("suspend_timer", VInt 0) ].

Definition sample_sensors (power_outputs : value) : dict :=
  [ ("brightness", VInt 120); ("light_state", VStr "day");
    ("light_state_lpf", VStr "day"); ("cpu_temperature", VInt 41);
    ("puck_temperature", VInt 38); ("fet_temperature", VInt 36);
    ("pirs", VList [VDict sample_pir; VNone]);
    ("input_state", VNone); ("power_outputs", power_outputs) ].

(** A dimmer channel with a name and no light configuration, as
    [DimmerConfigV2(name=..., feedback=...)] builds it, and one with a
    light configuration. *)
Definition sample_feedback : value :=
  VObj "DimmerConfigV2.Feedback"
    [("color", VStr "#ff0000"); ("brightness", VInt 50)].

Definition dimmer_without_light : value :=
  VObj "DimmerConfigV2"
    [("name", VStr "Ceiling"); ("feedback", sample_feedback); ("light", VNone)].

Definition sample_light : value :=
  VObj "DimmerConfigV2.Light"
    [ ("dimmable", VBool true);
      ("dimmer",
       VObj "DimmerConfigV2.Light.Dimmer"
         [("type", VStr "linear"); ("use_last_value", VBool true)]) ].

Definition dimmer_with_light : value :=
  VObj "DimmerConfigV2"
    [("name", VStr "Ceiling"); ("feedback", sample_feedback);
     ("light", sample_light)].

(** A decoded PIR and a [SensorsV2] instance reduced to its [pirs]. *)
Definition pir_with_motion (motion : bool) : value :=
  VObj "SensorsV2.PIR"
    [ ("enabled", VBool true); ("motion", VBool motion); ("mode", VStr "idle");
      ("light_off_timer", VInt 0); ("suspend_timer", VInt 0) ].

Definition sensors_with_pirs (pirs : list value) : value :=
  VObj "SensorsV2" [("pirs", VList pirs)].

(** The exception a caller sees when [e] leaves an [async def]. *)
Definition leaving_coroutine (e : exn) : exn :=
  if exn_kind_eqb (kind e) StopIteration
  then mkExn RuntimeError (Some StopIteration) false
  else e.

(** The GET of a read operation. *)
Definition get_request (self : DingzSessionV2.t) (path : string) : request :=
  mkRequest GET (DingzSessionV2.host self ++ "/api/v1" ++ path) None [].

Definition sent_append (w : world) (r : request) : world :=
  mkWorld (logged w) (sent w ++ [r]).

(** JSON values that are neither a mapping nor a sequence nor [null]. *)
Definition is_scalar (v : value) : bool :=
  match v with
  | VBool _ | VInt _ | VFloat _ | VStr _ => true
  | _ => false
  end.

(** The outcome a caller sees when an [async def] body ends with [o]. *)
Definition surfacing {A} (o : outcome A) : outcome A :=
  match o with
  | Return a => Return a
  | Raise e => Raise (leaving_coroutine e)
  end.

(** The two records a POST leaves in the log. *)
Definition post_log (path : string) (data : list (string * param)) : log_record :=
  mkLog DEBUG "POST %s | %s"
    [VStr path; match data with [] => VNone | _ :: _ => VStr (form_pairs data) end].

Definition response_log (resp : response) : log_record :=
  mkLog DEBUG "response: %s" [VInt (status resp)].

(** The world once a POST was logged and handed to the transport. *)
Definition after_post (self : DingzSessionV2.t) (path : string)
    (data : list (string * param)) (w : world) : world :=
  mkWorld (logged w ++ [post_log path data])
          (sent w ++ [form_request self path data]).

Definition is_set_led (c : write_call) : bool :=
  match c with SetLed _ _ => true | _ => false end.

(** The seven nested decodes of [StateV2._from_json] succeed on [d],
    started in [w], one after the other in the order of the source; [w7]
    is the world they leave. *)
Definition state_parts_decoded
    (Dimmer_list_from_json Blind_list_from_json LED_from_json
       WiFi_from_json Config_from_json : value -> M value)
    (d : dict) (w : world)
    (dimmers blinds led sensors thermostat wifi config : value)
    (w7 : world) : Prop :=
  exists r1 r2 r3 r4 r5 r6 r7 w1 w2 w3 w4 w5 w6,
    dict_get "dimmers" d = Some r1 /\
    Dimmer_list_from_json r1 w = (Return dimmers, w1) /\
    dict_get "blinds" d = Some r2 /\
    Blind_list_from_json r2 w1 = (Return blinds, w2) /\
    dict_get "led" d = Some r3 /\
    LED_from_json r3 w2 = (Return led, w3) /\
    dict_get "sensors" d = Some r4 /\
    SensorsV2.from_json r4 w3 = (Return sensors, w4) /\
    dict_get "thermostat" d = Some r5 /\
    ThermostatV2.from_json r5 w4 = (Return thermostat, w5) /\
    dict_get "wifi" d = Some r6 /\
    WiFi_from_json r6 w5 = (Return wifi, w6) /\
    dict_get "config" d = Some r7 /\
    Config_from_json r7 w6 = (Return config, w7).

(** An answer of [/dimmer_config], one channel. *)
Definition sample_dimmer_config : dict :=
  [ ("name", VStr "Ceiling");
    ("feedback", VDict [("color", VStr "#ff0000"); ("brightness", VInt 50)]);
    ("light",
     VDict [ ("dimmable", VBool true);
             ("dimmer",
              VDict [("type", VStr "linear"); ("use_last_value", VBool true)]) ]) ].

Definition sample_thermostat : dict :=
  [ ("active", VBool false); ("enabled", VBool true); ("target_temp", VInt 21);
    ("mode", VStr "heating"); ("temp", VInt 22); ("min_target_temp", VInt 17);
    ("max_target_temp", VInt 31) ].

(** An answer of [/state]; the parts decoded by classes of [.api] are
    left empty. *)
Definition sample_state : dict :=
  [ ("dimmers", VList []); ("blinds", VList []); ("led", VDict []);
    ("sensors", VDict (sample_sensors VNone));
    ("thermostat", VDict sample_thermostat);
    ("wifi", VDict []); ("config", VDict []) ].

(** A list decoder that keeps the entries as they are; it stands for a
    list decoder of [.api] where an example needs one. *)
Definition entries_as_list (raw : value) : M value :=
  match raw with
  | VList l => ret (VList l)
  | _ => raise (new_exn TypeError)
  end.

(** A session whose transport answers every request with the given
    status and the given result of [resp.json()]. *)
Definition answering_with (st : Z) (body : outcome value) (host : string)
  : DingzSessionV2.t :=
  DingzSessionV2.mk (fun _ => Return (mkResponse st body)) host.

(** A session whose transport fails on every request. *)
Definition unreachable (host : string) : DingzSessionV2.t :=
  DingzSessionV2.mk (fun _ => Raise (new_exn ClientError)) host.

(** A session that was closed: [aiohttp] raises
    [RuntimeError("Session is closed")] on every request. *)
Definition closed_session (host : string) : DingzSessionV2.t :=
  DingzSessionV2.mk (fun _ => Raise (new_exn RuntimeError)) host.

(** * Properties *)

(** ** Running the monad *)

Section MonadFacts.

Context {A B : Type}.

Lemma bind_lift_Return (a : A) (k : A -> M B) :
  bind (lift (Return a)) k = k a.
Proof. reflexivity. Qed.

Lemma bind_ret (a : A) (k : A -> M B) : bind (ret a) k = k a.
Proof. reflexivity. Qed.

Lemma bind_lift_Raise (e : exn) (k : A -> M B) (w : world) :
  bind (lift (Raise e)) k w = (Raise e, w).
Proof. reflexivity. Qed.

Lemma bind_returns (m : M A) (k : A -> M B) (w w' : world) (a : A) :
  m w = (Return a, w') -> bind m k w = k a w'.
Proof. unfold bind. now intros ->. Qed.

Lemma bind_raises (m : M A) (k : A -> M B) (w w' : world) (e : exn) :
  m w = (Raise e, w') -> bind m k w = (Raise e, w').
Proof. unfold bind. now intros ->. Qed.

Lemma try_returns (m : M A) (h : exn -> M A) (w w' : world) (a : A) :
  m w = (Return a, w') -> try_except m h w = (Return a, w').
Proof. unfold try_except. now intros ->. Qed.

Lemma try_raises (m : M A) (h : exn -> M A) (w w' : world) (e : exn) :
  m w = (Raise e, w') -> try_except m h w = h e w'.
Proof. unfold try_except. now intros ->. Qed.

End MonadFacts.

(** ** Facts about dictionaries and data-class construction *)

Section DictFacts.

Lemma append_assoc (a b c : string) : (a ++ b) ++ c = a ++ (b ++ c).
Proof.
  induction a as [|ch a IH]; simpl; [reflexivity|]. now rewrite IH.
Qed.

Lemma dict_get_set (k k' : string) (v : value) (d : dict) :
  dict_get k (dict_set k' v d) =
  if String.eqb k k' then Some v else dict_get k d.
Proof.
  induction d as [|[k0 v0] d IH]; simpl.
  - destruct (String.eqb k k'); reflexivity.
  - destruct (String.eqb k' k0) eqn:E0; simpl.
    + apply String.eqb_eq in E0; subst k0.
      destruct (String.eqb k k'); reflexivity.
    + rewrite IH.
      destruct (String.eqb k k') eqn:E1; [|reflexivity].
      apply String.eqb_eq in E1; subst k'. now rewrite E0.
Qed.

Lemma dict_get_del (k k' : string) (d : dict) :
  dict_get k (dict_del k' d) =
  if String.eqb k k' then None else dict_get k d.
Proof.
  induction d as [|[k0 v0] d IH]; simpl.
  - destruct (String.eqb k k'); reflexivity.
  - destruct (String.eqb k' k0) eqn:E0; simpl.
    + apply String.eqb_eq in E0; subst k0. rewrite IH.
      destruct (String.eqb k k'); reflexivity.
    + rewrite IH.
      destruct (String.eqb k k') eqn:E1; [|reflexivity].
      apply String.eqb_eq in E1; subst k'. now rewrite E0.
Qed.

Lemma bind_fields_get (fs : list (string * option value)) (kwargs attrs : dict)
    (name : string) :
  FromJSON.bind_fields fs kwargs = Some attrs ->
  dict_get name attrs =
  match declaration name fs with
  | Some default =>
      match dict_get name kwargs with
      | Some v => Some v
      | None => default
      end
  | None => None
  end.
Proof.
  revert attrs. induction fs as [|[name' default] fs IH]; simpl; intros attrs H.
  - now inversion H.
  - destruct (match dict_get name' kwargs with Some v => Some v | None => default end)
      as [v|] eqn:Ev; [|discriminate].
    destruct (FromJSON.bind_fields fs kwargs) as [rest|]; [|discriminate].
    inversion H; subst attrs; clear H. simpl.
    destruct (String.eqb name name') eqn:E.
    + apply String.eqb_eq in E; subst name'. exact (eq_sym Ev).
    + now apply IH.
Qed.

(** After [cls(...)] succeeded, a declared field holds the keyword
    argument of its name, or its default when there was none. *)
Lemma init_getattr (cls : dataclass) (kwargs : dict) (obj : value)
    (name : string) (default : option value) :
  FromJSON.init cls kwargs = Return obj ->
  declaration name (fields cls) = Some default ->
  exists v,
    getattr obj name = Return v /\
    match dict_get name kwargs with
    | Some x => Some x
    | None => default
    end = Some v.
Proof.
  unfold FromJSON.init. intros H D.
  destruct (forallb _ kwargs); [|discriminate].
  destruct (FromJSON.bind_fields (fields cls) kwargs) as [attrs|] eqn:B;
    [|discriminate].
  inversion H; subst obj; clear H. simpl.
  rewrite (bind_fields_get _ _ _ name B), D.
  destruct (match dict_get name kwargs with Some x => Some x | None => default end)
    as [v|] eqn:Ev.
  - now exists v.
  - exfalso. clear -B D Ev. revert attrs B.
    induction (fields cls) as [|[n' d'] fs IH]; simpl in *; [discriminate|].
    intros attrs B. destruct (String.eqb name n') eqn:E.
    + apply String.eqb_eq in E; subst n'. inversion D; subst d'.
      now rewrite Ev in B.
    + destruct (match dict_get n' kwargs with Some v => Some v | None => d' end);
        [|discriminate].
      destruct (FromJSON.bind_fields fs kwargs) as [rest|]; [|discriminate].
      now apply (IH D rest).
Qed.

End DictFacts.

(** ** Facts about [round] *)

Section RoundFacts.

(** [div_half_even m d] is a nearest integer to [m / d] ... *)
Lemma div_half_even_nearest (m d : Z) :
  0 < d -> Z.abs (2 * m - 2 * div_half_even m d * d) <= d.
Proof.
  intros Hd. unfold div_half_even.
  pose proof (Z.div_mod m d ltac:(lia)) as E.
  pose proof (Z.mod_pos_bound m d Hd) as B.
  destruct (2 * (m mod d) <? d) eqn:L1; [apply Z.ltb_lt in L1; nia|].
  apply Z.ltb_ge in L1.
  destruct (d <? 2 * (m mod d)) eqn:L2; [apply Z.ltb_lt in L2; nia|].
  apply Z.ltb_ge in L2.
  destruct (Z.even (m / d)); nia.
Qed.

(** ... and on a tie it is the even one. *)
Lemma div_half_even_tie (m d : Z) :
  0 < d -> Z.abs (2 * m - 2 * div_half_even m d * d) = d ->
  Z.even (div_half_even m d) = true.
Proof.
  intros Hd. unfold div_half_even.
  pose proof (Z.div_mod m d ltac:(lia)) as E.
  pose proof (Z.mod_pos_bound m d Hd) as B.
  destruct (2 * (m mod d) <? d) eqn:L1; [apply Z.ltb_lt in L1; nia|].
  apply Z.ltb_ge in L1.
  destruct (d <? 2 * (m mod d)) eqn:L2; [apply Z.ltb_lt in L2; nia|].
  apply Z.ltb_ge in L2.
  destruct (Z.even (m / d)) eqn:Ev; intros _; [exact Ev|].
  rewrite Z.even_add, Ev. reflexivity.
Qed.

End RoundFacts.


(** ** The device read operation *)

Section Device.

Variable Device_from_json : value -> M value.

(** C1, amended. [DingzSessionV2.device] on an answer that is a mapping.
    With zero entries the call fails: [next] raises [StopIteration] on
    the empty view, the error "empty device response" is logged and the
    exception is re-raised; leaving the coroutine it reaches the caller
    as the [RuntimeError] whose cause it is. With two entries a warning
    is logged and the call continues with [Device.from_json] on the value
    of the first entry, so it returns the decoded first entry whenever
    that entry decodes, and adds no failure of its own. *)
Theorem device_empty_fails_two_uses_first
    (self : DingzSessionV2.t) (w : world) (st : Z) :
  let req := mkRequest GET (DingzSessionV2.host self ++ "/api/v1/device") None [] in
  (DingzSessionV2.session self req = Return (mkResponse st (Return (VDict []))) ->
   DingzSessionV2.device Device_from_json self w =
   (Raise (mkExn RuntimeError (Some StopIteration) false),
    mkWorld (logged w ++ [mkLog ERROR "empty device response" []])
            (sent w ++ [req])))
  /\
  (forall k1 v1 k2 v2,
     let raw := VDict [(k1, v1); (k2, v2)] in
     let w1 := mkWorld
                 (logged w ++ [mkLog WARNING "received more than one device: " [raw]])
                 (sent w ++ [req]) in
     DingzSessionV2.session self req = Return (mkResponse st (Return raw)) ->
     DingzSessionV2.device Device_from_json self w =
     coroutine (Device_from_json v1) w1 /\
     forall d w',
       Device_from_json v1 w1 = (Return d, w') ->
       DingzSessionV2.device Device_from_json self w = (Return d, w')).
Proof.
  intros req. split.
  - intros H.
    unfold DingzSessionV2.device, DingzSessionV2._get, DingzSessionV2.send,
      coroutine, try_except, bind, lift. simpl. fold req. rewrite H. reflexivity.
  - intros k1 v1 k2 v2 raw w1 H.
    assert (E : DingzSessionV2.device Device_from_json self w =
                coroutine (Device_from_json v1) w1).
    { unfold DingzSessionV2.device, DingzSessionV2._get, DingzSessionV2.send,
        coroutine, try_except, bind, lift. simpl. fold req. rewrite H. simpl.
      reflexivity. }
    split; [exact E|].
    intros d w' Hd. rewrite E. unfold coroutine, try_except. now rewrite Hd.
Qed.

End Device.

(** The two cases on concrete answers of [/device]. *)
Lemma device_empty_fails_two_uses_first_witness :
  DingzSessionV2.device (entries_as_attrs "Device")
    (answering (VDict []) "http://dingz.local") idle =
  (Raise (mkExn RuntimeError (Some StopIteration) false),
   mkWorld [mkLog ERROR "empty device response" []]
           [mkRequest GET "http://dingz.local/api/v1/device" None []])
  /\
  fst (DingzSessionV2.device (entries_as_attrs "Device")
         (answering
            (VDict [ ("F008D1C4A5B6", VDict [("type", VStr "dingz")]);
                     ("F008D1C4A5B7", VDict [("type", VStr "puck")]) ])
            "http://dingz.local") idle) =
  Return (VObj "Device" [("type", VStr "dingz")]).
Proof.
  split.
  - exact (proj1 (device_empty_fails_two_uses_first (entries_as_attrs "Device")
                    (answering (VDict []) "http://dingz.local") idle 200)
                 eq_refl).
  - exact (f_equal fst
             (proj2
                (proj2 (device_empty_fails_two_uses_first
                          (entries_as_attrs "Device")
                          (answering
                             (VDict [ ("F008D1C4A5B6", VDict [("type", VStr "dingz")]);
                                      ("F008D1C4A5B7", VDict [("type", VStr "puck")]) ])
                             "http://dingz.local") idle 200)
                       "F008D1C4A5B6" (VDict [("type", VStr "dingz")])
                       "F008D1C4A5B7" (VDict [("type", VStr "puck")])
                       eq_refl)
                _ _ eq_refl)).
Defined.

(** C1, as stated, fails: the exception of the empty answer is not of a
    kind of its own. On an empty mapping the caller gets a
    [RuntimeError], the class of exception it also gets from a closed
    session whatever the device would answer; so no class of exceptions
    is raised by [device] on the empty answer and only on an empty
    answer, which is what an EmptyResponseError would be. *)
Lemma device_empty_error_is_runtime_error :
  DingzSessionV2.device (entries_as_attrs "Device")
    (answering (VDict []) "http://dingz.local") idle =
  (Raise (mkExn RuntimeError (Some StopIteration) false),
   mkWorld [mkLog ERROR "empty device response" []]
           [mkRequest GET "http://dingz.local/api/v1/device" None []])
  /\
  fst (DingzSessionV2.device (entries_as_attrs "Device")
         (closed_session "http://dingz.local") idle) =
  Raise (new_exn RuntimeError)
  /\
  ~ (exists EmptyResponseError : exn_kind -> bool,
       (forall e,
          fst (DingzSessionV2.device (entries_as_attrs "Device")
                 (answering (VDict []) "http://dingz.local") idle) = Raise e ->
          EmptyResponseError (kind e) = true)
       /\
       (forall self e,
          fst (DingzSessionV2.device (entries_as_attrs "Device") self idle) =
            Raise e ->
          EmptyResponseError (kind e) = true ->
          exists st,
            DingzSessionV2.session self
              (mkRequest GET (DingzSessionV2.host self ++ "/api/v1/device")
                 None []) =
            Return (mkResponse st (Return (VDict []))))).
Proof.
  split; [reflexivity|]. split; [reflexivity|].
  intros (P & Hempty & Honly).
  pose proof (Hempty (mkExn RuntimeError (Some StopIteration) false) eq_refl)
    as HP.
  destruct (Honly (closed_session "http://dingz.local")
              (new_exn RuntimeError) eq_refl HP) as [st Hst].
  discriminate Hst.
Qed.

(** ** Requests of the write operations *)

Section Requests.

Variable self : DingzSessionV2.t.

Lemma join_form_pairs (data : list (string * param)) :
  join "&" (map (fun '(key, v) => key ++ "=" ++ format v) data) =
  form_pairs data.
Proof.
  unfold join. induction data as [|[k v] rest IH]; [reflexivity|].
  destruct rest as [|[k' v'] rest']; [reflexivity|].
  change (form_pairs ((k, v) :: (k', v') :: rest'))
    with (k ++ "=" ++ format v ++ "&" ++ form_pairs ((k', v') :: rest')).
  rewrite <- IH.
  change (concat "&" (map (fun '(key, v) => key ++ "=" ++ format v)
                          ((k, v) :: (k', v') :: rest')))
    with ((k ++ "=" ++ format v) ++ "&" ++
          concat "&" (map (fun '(key, v) => key ++ "=" ++ format v)
                          ((k', v') :: rest'))).
  now rewrite append_assoc.
Qed.

Lemma post_request_run (path : string) (data : list (string * param)) (w : world) :
  DingzSessionV2.__post_request self path data w =
  (DingzSessionV2.session self (form_request self path data),
   mkWorld
     (logged w ++
      [mkLog DEBUG "POST %s | %s"
         [VStr path;
          match req_body (form_request self path data) with
          | Some b => VStr b
          | None => VNone
          end]])
     (sent w ++ [form_request self path data])).
Proof.
  unfold DingzSessionV2.__post_request, form_request.
  destruct data as [|p rest]; [reflexivity|].
  rewrite join_form_pairs. reflexivity.
Qed.

Lemma post_plain_sent (path : string) (data : list (string * param)) (w : world) :
  sent (snd (DingzSessionV2._post_plain self path data w)) =
  (sent w ++ [form_request self path data])%list.
Proof.
  unfold DingzSessionV2._post_plain, coroutine, try_except, bind.
  rewrite post_request_run.
  destruct (DingzSessionV2.session self _) as [resp|e]; simpl.
  - unfold DingzSessionV2.raise_for_status.
    destruct (400 <=? status resp); reflexivity.
  - destruct (exn_kind_eqb (kind e) StopIteration); reflexivity.
Qed.

Lemma post_json_sent (path : string) (data : list (string * param)) (w : world) :
  sent (snd (DingzSessionV2._post_json self path data w)) =
  (sent w ++ [form_request self path data])%list.
Proof.
  unfold DingzSessionV2._post_json, coroutine, try_except, bind.
  rewrite post_request_run.
  destruct (DingzSessionV2.session self _) as [resp|e]; simpl.
  - unfold lift. destruct (json resp) as [v|e]; simpl; [reflexivity|].
    destruct (exn_kind_eqb (kind e) StopIteration); reflexivity.
  - destruct (exn_kind_eqb (kind e) StopIteration); reflexivity.
Qed.

(** Running an [async def] body as a coroutine sends what the body sends. *)
Lemma coroutine_sent {A} (body : M A) (w : world) :
  sent (snd (coroutine body w)) = sent (snd (body w)).
Proof.
  unfold coroutine, try_except. destruct (body w) as [[a|e] w']; simpl;
    [reflexivity|].
  destruct (exn_kind_eqb (kind e) StopIteration); reflexivity.
Qed.

Lemma then_ret_sent {A} (m : M A) (w : world) :
  sent (snd ((m ;;; ret tt) w)) = sent (snd (m w)).
Proof.
  unfold bind, ret. destruct (m w) as [[a|e] w']; reflexivity.
Qed.

Lemma set_led_color_sent (state : option bool) (h s v : num) (H S V : Z)
    (w : world) :
  round h = Return H -> round s = Return S -> round v = Return V ->
  sent (snd (DingzSessionV2.set_led self state (Some (h, s, v)) w)) =
  (sent w ++
   [form_request self "/led/set"
      [ ("action", PStr (led_action state));
        ("color", PStr (str_int (H mod 360) ++ ";" ++ str_int S ++ ";" ++ str_int V));
        ("mode", PStr "hsv") ]])%list.
Proof.
  intros Hh Hs Hv. unfold DingzSessionV2.set_led.
  rewrite coroutine_sent. unfold bind at 1. unfold bind at 1, lift.
  rewrite Hh. unfold bind at 1. rewrite Hs. unfold bind at 1. rewrite Hv.
  unfold ret at 1. rewrite then_ret_sent, post_json_sent.
  destruct state as [[|]|]; reflexivity.
Qed.

Lemma set_led_plain_sent (state : option bool) (w : world) :
  sent (snd (DingzSessionV2.set_led self state None w)) =
  (sent w ++ [form_request self "/led/set" [("action", PStr (led_action state))]])%list.
Proof.
  unfold DingzSessionV2.set_led.
  rewrite coroutine_sent. unfold bind at 1, ret at 1.
  rewrite then_ret_sent, post_json_sent.
  destruct state as [[|]|]; reflexivity.
Qed.

Lemma set_dimmer_sent (index : Z) (state : bool) (value : option num) (w : world) :
  sent (snd (DingzSessionV2.set_dimmer self index state value w)) =
  match value with
  | None =>
      (sent w ++
       [form_request self
          ("/dimmer/" ++ str_int index ++ "/" ++ (if state then "on" else "off"))
          []])%list
  | Some x =>
      match round x with
      | Return n =>
          (sent w ++
           [form_request self
              ("/dimmer/" ++ str_int index ++ "/" ++ (if state then "on" else "off"))
              [("value", PInt n)]])%list
      | Raise _ => sent w
      end
  end.
Proof.
  unfold DingzSessionV2.set_dimmer. rewrite coroutine_sent.
  destruct value as [x|].
  - unfold bind at 1. unfold bind at 1, lift.
    destruct (round x) as [n|e]; [|reflexivity].
    unfold ret at 1. apply post_plain_sent.
  - unfold bind at 1, ret at 1. apply post_plain_sent.
Qed.

Lemma set_blind_position_sent (index : Z) (position : num) (w : world) :
  sent (snd (DingzSessionV2.set_blind_position self index position w)) =
  match round position with
  | Return n =>
      (sent w ++
       [form_request self ("/shade/" ++ str_int index) [("blind", PInt n)]])%list
  | Raise _ => sent w
  end.
Proof.
  unfold DingzSessionV2.set_blind_position. rewrite coroutine_sent.
  unfold bind at 1, lift.
  destruct (round position) as [n|e]; [|reflexivity].
  apply post_plain_sent.
Qed.

(** C4. What [__post_request] hands to the transport. With no parameter
    the POST has no body and no header. With at least one, the body is
    the parameters written [key=value] and joined by [&], every key and
    value copied as it is (no escaping), and the only header is
    [Content-Type: application/x-www-form-urlencoded]. Every write
    operation of the session sends exactly this request for its path and
    its parameter set, and nothing else; it sends nothing when [round]
    raises on its argument. *)
Theorem post_body_joined_by_hand :
  (forall path w,
     sent (snd (DingzSessionV2.__post_request self path [] w)) =
     (sent w ++
      [mkRequest POST (DingzSessionV2.host self ++ "/api/v1" ++ path) None []])%list)
  /\
  (forall path p rest w,
     sent (snd (DingzSessionV2.__post_request self path (p :: rest) w)) =
     (sent w ++
      [mkRequest POST (DingzSessionV2.host self ++ "/api/v1" ++ path)
         (Some (form_pairs (p :: rest)))
         [("Content-Type", "application/x-www-form-urlencoded")]])%list)
  /\
  (forall c w,
     sent (snd (perform self c w)) =
     match call_params c with
     | Return (path, data) => (sent w ++ [form_request self path data])%list
     | Raise _ => sent w
     end).
Proof.
  split; [|split].
  - intros path w. now rewrite post_request_run.
  - intros path p rest w. now rewrite post_request_run.
  - intros c w. destruct c as [state color|index state v|index position
                               |index|index|index]; simpl.
    + destruct color as [[[h s] v]|]; [|apply set_led_plain_sent].
      destruct (round h) as [H|e] eqn:Hh;
        [destruct (round s) as [S|e] eqn:Hs;
           [destruct (round v) as [V|e] eqn:Hv|]|]; cbn [and_then].
      * now apply set_led_color_sent.
      * unfold DingzSessionV2.set_led. rewrite coroutine_sent.
        unfold bind at 1. unfold bind at 1, lift. rewrite Hh.
        unfold bind at 1. rewrite Hs. unfold bind at 1. now rewrite Hv.
      * unfold DingzSessionV2.set_led. rewrite coroutine_sent.
        unfold bind at 1. unfold bind at 1, lift. rewrite Hh.
        unfold bind at 1. now rewrite Hs.
      * unfold DingzSessionV2.set_led. rewrite coroutine_sent.
        unfold bind at 1. unfold bind at 1, lift. now rewrite Hh.
    + rewrite set_dimmer_sent. destruct v as [x|].
      * destruct (round x); cbn [and_then]; [|reflexivity].
        destruct state; reflexivity.
      * destruct state; reflexivity.
    + rewrite set_blind_position_sent.
      destruct (round position); reflexivity.
    + unfold DingzSessionV2.blind_down.
      rewrite coroutine_sent. apply post_plain_sent.
    + unfold DingzSessionV2.blind_up.
      rewrite coroutine_sent. apply post_plain_sent.
    + unfold DingzSessionV2.blind_stop.
      rewrite coroutine_sent. apply post_plain_sent.
Qed.

(** C2. The request of [set_led]. For [state=None] and the colour
    [(400, 50.6, 100.4)] the body is
    [action=toggle&color=40;51;100&mode=hsv]. In general a colour whose
    three components [round] to [H], [S], [V] is sent as
    [color=(H mod 360);S;V] together with [mode=hsv], after the action,
    which is [toggle] for [None], [on] for [True] and [off] for [False];
    the hue sent lies in 0..359. Without a colour only the action is
    sent. *)
Theorem set_led_body :
  (forall w,
     sent (snd (DingzSessionV2.set_led self None
                  (Some (NInt 400, NFloat float_50_6, NFloat float_100_4)) w)) =
     (sent w ++
      [mkRequest POST (DingzSessionV2.host self ++ "/api/v1/led/set")
         (Some "action=toggle&color=40;51;100&mode=hsv")
         [("Content-Type", "application/x-www-form-urlencoded")]])%list)
  /\
  (forall state h s v H S V w,
     round h = Return H -> round s = Return S -> round v = Return V ->
     sent (snd (DingzSessionV2.set_led self state (Some (h, s, v)) w)) =
     (sent w ++
      [mkRequest POST (DingzSessionV2.host self ++ "/api/v1/led/set")
         (Some ("action=" ++ led_action state ++
                "&color=" ++ str_int (H mod 360) ++ ";" ++ str_int S ++ ";" ++
                str_int V ++ "&mode=hsv")%string)
         [("Content-Type", "application/x-www-form-urlencoded")]])%list
     /\ 0 <= H mod 360 < 360)
  /\
  (forall state w,
     sent (snd (DingzSessionV2.set_led self state None w)) =
     (sent w ++
      [mkRequest POST (DingzSessionV2.host self ++ "/api/v1/led/set")
         (Some ("action=" ++ led_action state)%string)
         [("Content-Type", "application/x-www-form-urlencoded")]])%list)
  /\
  led_action None = "toggle" /\ led_action (Some true) = "on" /\
  led_action (Some false) = "off".
Proof.
  split; [|split; [|split]].
  - intros w.
    now rewrite (set_led_color_sent None (NInt 400) (NFloat float_50_6)
                   (NFloat float_100_4) 400 51 100 w eq_refl eq_refl eq_refl).
  - intros state h s v H S V w Hh Hs Hv. split.
    + rewrite (set_led_color_sent state h s v H S V w Hh Hs Hv).
      unfold form_request, form_pairs, format.
      rewrite !append_assoc. reflexivity.
    + apply Z.mod_pos_bound. lia.
  - intros state w. now rewrite set_led_plain_sent.
  - repeat split.
Qed.

(** The magnitude [round] gives a finite [float] with a negative exponent
    is a nearest integer, the even one on a tie. *)
Lemma round_float_half_even (s : bool) (m : positive) (e n : Z) :
  e < 0 ->
  round (NFloat (S754_finite s m e)) = Return n ->
  Z.abs (2 * Zpos m - 2 * Z.abs n * 2 ^ (- e)) <= 2 ^ (- e) /\
  (Z.abs (2 * Zpos m - 2 * Z.abs n * 2 ^ (- e)) = 2 ^ (- e) -> Z.even n = true).
Proof.
  intros He Hr. simpl in Hr.
  destruct (0 <=? e) eqn:E0; [apply Z.leb_le in E0; lia|].
  assert (Hd : 0 < 2 ^ (- e)) by (apply Z.pow_pos_nonneg; lia).
  set (d := 2 ^ (- e)) in *.
  assert (Hq : 0 <= div_half_even (Zpos m) d).
  { unfold div_half_even.
    assert (0 <= Zpos m / d) by (apply Z.div_pos; lia).
    destruct (2 * (Zpos m mod d) <? d); [lia|].
    destruct (d <? 2 * (Zpos m mod d)); [lia|].
    destruct (Z.even (Zpos m / d)); lia. }
  assert (Ha : Z.abs n = div_half_even (Zpos m) d /\
               Z.even n = Z.even (div_half_even (Zpos m) d)).
  { inversion Hr as [Hn]. destruct s.
    - split; [lia|]. now rewrite Z.even_opp.
    - split; [lia|reflexivity]. }
  destruct Ha as [Ha Hev]. rewrite Ha, Hev. split.
  - now apply div_half_even_nearest.
  - now apply div_half_even_tie.
Qed.

(** The constants are the binary64 values nearest to the decimal
    literals: exact for 57.5 and 56.5, within half a unit in the last
    place for 50.6 and 100.4. *)
Lemma float_literals :
  (bounded 53 1024 7121316910779597 (-47) = true /\
   Z.abs (10 * 7121316910779597 - 506 * 2 ^ 47) <= 5) /\
  (bounded 53 1024 7065021915437466 (-46) = true /\
   Z.abs (10 * 7065021915437466 - 1004 * 2 ^ 46) <= 5) /\
  (bounded 53 1024 8092405580431360 (-47) = true /\
   2 * 8092405580431360 = 115 * 2 ^ 47) /\
  (bounded 53 1024 7951668092076032 (-47) = true /\
   2 * 7951668092076032 = 113 * 2 ^ 47).
Proof. vm_compute. intuition congruence. Qed.

(** C3. [set_blind_position(2, 57.5)] sends one POST to [/shade/2] whose
    body is [blind=58], the separator [=] written as it is. The rule is
    the one of [round]: the nearest integer, and on a tie the even one
    (so 56.5 gives 56 while 57.5 gives 58); for any index and position
    the body is [blind=] followed by the rounded position. *)
Theorem set_blind_position_body :
  (forall w,
     sent (snd (DingzSessionV2.set_blind_position self 2 (NFloat float_57_5) w)) =
     (sent w ++
      [mkRequest POST (DingzSessionV2.host self ++ "/api/v1/shade/2")
         (Some "blind=58")
         [("Content-Type", "application/x-www-form-urlencoded")]])%list)
  /\
  (forall index position n w,
     round position = Return n ->
     sent (snd (DingzSessionV2.set_blind_position self index position w)) =
     (sent w ++
      [mkRequest POST
         (DingzSessionV2.host self ++ "/api/v1/shade/" ++ str_int index)
         (Some ("blind=" ++ str_int n)%string)
         [("Content-Type", "application/x-www-form-urlencoded")]])%list)
  /\
  (forall s m e n,
     e < 0 ->
     round (NFloat (S754_finite s m e)) = Return n ->
     Z.abs (2 * Zpos m - 2 * Z.abs n * 2 ^ (- e)) <= 2 ^ (- e) /\
     (Z.abs (2 * Zpos m - 2 * Z.abs n * 2 ^ (- e)) = 2 ^ (- e) ->
      Z.even n = true))
  /\
  round (NFloat float_56_5) = Return 56.
Proof.
  split; [|split; [|split]].
  - intros w. now rewrite set_blind_position_sent.
  - intros index position n w Hn. now rewrite set_blind_position_sent, Hn.
  - intros s m e n. apply round_float_half_even.
  - reflexivity.
Qed.

End Requests.

(** [set_led(state=True, color=(400, 50.6, 100.4))] on a concrete session. *)
Lemma set_led_body_witness :
  sent (snd (DingzSessionV2.set_led (answering VNone "http://dingz.local")
               (Some true)
               (Some (NInt 400, NFloat float_50_6, NFloat float_100_4)) idle)) =
  [mkRequest POST "http://dingz.local/api/v1/led/set"
     (Some "action=on&color=40;51;100&mode=hsv")
     [("Content-Type", "application/x-www-form-urlencoded")]]
  /\ 0 <= 400 mod 360 < 360.
Proof.
  exact (proj1 (proj2 (set_led_body (answering VNone "http://dingz.local")))
           (Some true) (NInt 400) (NFloat float_50_6) (NFloat float_100_4)
           400 51 100 idle eq_refl eq_refl eq_refl).
Defined.

(** [set_blind_position(2, 57.5)] on a concrete session, and the rounding
    of 57.5, a tie, to the even neighbour 58. *)
Lemma set_blind_position_body_witness :
  sent (snd (DingzSessionV2.set_blind_position
               (answering VNone "http://dingz.local") 2 (NFloat float_57_5) idle)) =
  [mkRequest POST "http://dingz.local/api/v1/shade/2" (Some "blind=58")
     [("Content-Type", "application/x-www-form-urlencoded")]]
  /\
  (Z.abs (2 * 8092405580431360 - 2 * Z.abs 58 * 2 ^ 47) <= 2 ^ 47 /\
   (Z.abs (2 * 8092405580431360 - 2 * Z.abs 58 * 2 ^ 47) = 2 ^ 47 ->
    Z.even 58 = true)).
Proof.
  split.
  - exact (proj1 (proj2 (set_blind_position_body
                           (answering VNone "http://dingz.local")))
             2 (NFloat float_57_5) 58 idle eq_refl).
  - exact (proj1 (proj2 (proj2 (set_blind_position_body
                                  (answering VNone "http://dingz.local"))))
             false 8092405580431360%positive (-47) 58 eq_refl eq_refl).
Defined.

(** ** Decoding the system configuration *)

Section SystemConfig.

Variable TempComp_from_json : value -> M value.

Lemma forallb_dict_set (P : string * value -> bool) (k : string) (v : value)
    (d : dict) :
  (forall k0 v0 v1, P (k0, v0) = P (k0, v1)) ->
  P (k, v) = true -> forallb P d = true -> forallb P (dict_set k v d) = true.
Proof.
  intros Hk Hp. induction d as [|[k0 v0] d IH]; simpl; intros H.
  - now rewrite Hp.
  - apply andb_true_iff in H as [H0 H1].
    destruct (String.eqb k k0) eqn:E; simpl.
    + now rewrite (Hk k0 v v0), H0, H1.
    + now rewrite H0, IH.
Qed.

Lemma forallb_dict_del (P : string * value -> bool) (k : string) (d : dict) :
  forallb P d = true -> forallb P (dict_del k d) = true.
Proof.
  induction d as [|[k0 v0] d IH]; simpl; intros H; [reflexivity|].
  apply andb_true_iff in H as [H0 H1].
  destruct (String.eqb k k0); simpl; [auto|]. now rewrite H0, IH.
Qed.

(** A mapping with at least the keys of [d] has the required entries
    that [d] has. *)
Lemma required_present_mono (fs : list (string * option value)) (d d' : dict) :
  (forall name, dict_get name d' = None -> dict_get name d = None) ->
  required_present fs d = true -> required_present fs d' = true.
Proof.
  intros Hsub. unfold required_present. rewrite !forallb_forall.
  intros H f Hf. specialize (H f Hf).
  destruct (snd f); [reflexivity|].
  destruct (dict_get (fst f) d') eqn:E; [reflexivity|].
  now rewrite (Hsub _ E) in H.
Qed.

Lemma bind_fields_complete (fs : list (string * option value)) (d : dict) :
  required_present fs d = true -> exists attrs, FromJSON.bind_fields fs d = Some attrs.
Proof.
  induction fs as [|[name default] fs IH]; simpl; intros H; [now eexists|].
  apply andb_true_iff in H as [H0 H1]. destruct (IH H1) as [attrs ->].
  destruct (dict_get name d) as [v|]; [now eexists|].
  destruct default as [v|]; [now eexists|discriminate].
Qed.

(** [cls(...)] succeeds on a complete mapping. *)
Lemma init_complete (cls : dataclass) (d : dict) :
  complete cls d = true -> exists obj, FromJSON.init cls d = Return obj.
Proof.
  unfold complete, keys_declared, FromJSON.init. intros H.
  apply andb_true_iff in H as [H0 H1]. rewrite H0.
  destruct (bind_fields_complete _ _ H1) as [attrs ->]. now eexists.
Qed.

Lemma complete_dict_set (cls : dataclass) (k : string) (v : value) (d : dict) :
  FromJSON.declared cls k = true ->
  complete cls d = true -> complete cls (dict_set k v d) = true.
Proof.
  unfold complete, keys_declared. intros Hk H.
  apply andb_true_iff in H as [H0 H1]. apply andb_true_iff. split.
  - apply forallb_dict_set; auto.
  - apply (required_present_mono _ d); [|exact H1].
    intros name. rewrite dict_get_set.
    destruct (String.eqb name k); [discriminate|auto].
Qed.

Lemma complete_dict_replace (cls : dataclass) (k : string) (v : value) (d : dict) :
  FromJSON.declared cls k = true ->
  complete cls d = true -> complete cls (dict_set k v (dict_del k d)) = true.
Proof.
  unfold complete, keys_declared. intros Hk H.
  apply andb_true_iff in H as [H0 H1]. apply andb_true_iff. split.
  - apply forallb_dict_set; auto. now apply forallb_dict_del.
  - apply (required_present_mono _ d); [|exact H1].
    intros name. rewrite dict_get_set, dict_get_del.
    destruct (String.eqb name k); [discriminate|auto].
Qed.

(** The hook after its three nested decodes: what is left is the
    [temp_comp] step and the generic pass, on the rewritten mapping. *)
Lemma system_config_hook_head (d : dict) (w w3 : world)
    (sunrise sunset dyn_light : value) :
  nested_decoded d w sunrise sunset dyn_light w3 ->
  SystemConfigV2._from_json TempComp_from_json (VDict d) w =
  (data <- match pop (VDict (dict_set "dyn_light" dyn_light
                               (dict_set "sunset" sunset
                                  (dict_set "sunrise" sunrise d))))
                 "temp_comp" with
           | Raise e =>
               if exn_kind_eqb (kind e) KeyError
               then ret (VDict (dict_set "dyn_light" dyn_light
                                  (dict_set "sunset" sunset
                                     (dict_set "sunrise" sunrise d))))
               else raise e
           | Return (raw_temp_comp, data) =>
               temp_comp <- TempComp_from_json raw_temp_comp ;;
               lift (setitem data "temp_comp" temp_comp)
           end ;;
   FromJSON._from_json SystemConfigV2.cls data) w3.
Proof.
  intros (raw1 & raw2 & raw3 & w1 & w2 & G1 & D1 & G2 & D2 & G3 & D3).
  unfold SystemConfigV2._from_json.
  cbn [getitem]. rewrite G1, bind_lift_Return, (bind_returns _ _ _ _ _ D1).
  cbn [setitem]. rewrite bind_lift_Return.
  cbn [getitem]. rewrite dict_get_set. cbn [String.eqb Ascii.eqb Bool.eqb].
  rewrite G2, bind_lift_Return, (bind_returns _ _ _ _ _ D2).
  cbn [setitem]. rewrite bind_lift_Return.
  cbn [getitem]. rewrite !dict_get_set. cbn [String.eqb Ascii.eqb Bool.eqb].
  rewrite G3, bind_lift_Return, (bind_returns _ _ _ _ _ D3).
  cbn [setitem]. rewrite bind_lift_Return.
  reflexivity.
Qed.

Lemma from_json_returns (cls : dataclass) (hook : value -> M value)
    (d : dict) (w w' : world) (obj : value) :
  hook (VDict d) w = (Return obj, w') ->
  FromJSON.from_json cls hook (VDict d) w = (Return obj, w').
Proof.
  intros H. unfold FromJSON.from_json. apply try_returns.
  cbn [copy]. now rewrite bind_lift_Return.
Qed.

(** C5. [SystemConfigV2._from_json], and with it the decode
    [SystemConfigV2.from_json], on a complete mapping whose [sunrise],
    [sunset] and [dyn_light] entries decode. Without a [temp_comp] key the
    decode succeeds (the [KeyError] of [pop] is passed over, the
    [TempComp] decoder is not run) and the [temp_comp] field of the result
    is [None]. With the key, its value is taken out of the mapping and
    given to [TempComp.from_json]: when that returns, the decode succeeds
    and the field holds what it returned; when that raises, the decode
    raises the same exception. *)
Theorem system_config_temp_comp (d : dict) (w w3 : world)
    (sunrise sunset dyn_light : value) :
  nested_decoded d w sunrise sunset dyn_light w3 ->
  complete SystemConfigV2.cls d = true ->
  (dict_get "temp_comp" d = None ->
   exists obj,
     SystemConfigV2._from_json TempComp_from_json (VDict d) w = (Return obj, w3) /\
     SystemConfigV2.from_json TempComp_from_json (VDict d) w = (Return obj, w3) /\
     getattr obj "temp_comp" = Return VNone)
  /\
  (forall raw,
     dict_get "temp_comp" d = Some raw ->
     (forall temp_comp w4,
        TempComp_from_json raw w3 = (Return temp_comp, w4) ->
        exists obj,
          SystemConfigV2._from_json TempComp_from_json (VDict d) w =
          (Return obj, w4) /\
          SystemConfigV2.from_json TempComp_from_json (VDict d) w =
          (Return obj, w4) /\
          getattr obj "temp_comp" = Return temp_comp)
     /\
     (forall e w4,
        TempComp_from_json raw w3 = (Raise e, w4) ->
        SystemConfigV2._from_json TempComp_from_json (VDict d) w =
        (Raise e, w4))).
Proof.
  intros Hn Hc.
  set (d3 := dict_set "dyn_light" dyn_light
               (dict_set "sunset" sunset (dict_set "sunrise" sunrise d))).
  assert (Hget : dict_get "temp_comp" d3 = dict_get "temp_comp" d).
  { unfold d3. now rewrite !dict_get_set. }
  assert (Hc3 : complete SystemConfigV2.cls d3 = true).
  { unfold d3. now repeat apply complete_dict_set. }
  pose proof (system_config_hook_head d w w3 sunrise sunset dyn_light Hn) as Hrun.
  fold d3 in Hrun.
  split.
  - intros Habs. rewrite Habs in Hget.
    destruct (init_complete _ _ Hc3) as [obj Hobj]. exists obj.
    assert (E : SystemConfigV2._from_json TempComp_from_json (VDict d) w =
                (Return obj, w3)).
    { rewrite Hrun. cbn [pop]. rewrite Hget. cbn. unfold lift.
      now rewrite Hobj. }
    split; [exact E|]. split.
    + now apply from_json_returns.
    + destruct (init_getattr _ _ _ "temp_comp" (Some VNone) Hobj eq_refl)
        as (v & Hv & Hd).
      rewrite Hget in Hd. now inversion Hd; subst v.
  - intros raw Hraw. rewrite Hraw in Hget. split.
    + intros temp_comp w4 Htc.
      assert (Hc4 : complete SystemConfigV2.cls
                      (dict_set "temp_comp" temp_comp (dict_del "temp_comp" d3))
                    = true) by now apply complete_dict_replace.
      destruct (init_complete _ _ Hc4) as [obj Hobj]. exists obj.
      assert (E : SystemConfigV2._from_json TempComp_from_json (VDict d) w =
                  (Return obj, w4)).
      { rewrite Hrun. cbn [pop]. rewrite Hget.
        rewrite (bind_returns _ _ _ _ _
                   (bind_returns _ _ _ _ _ Htc)).
        cbn. unfold lift. now rewrite Hobj. }
      split; [exact E|]. split.
      * now apply from_json_returns.
      * destruct (init_getattr _ _ _ "temp_comp" (Some VNone) Hobj eq_refl)
          as (v & Hv & Hd).
        rewrite dict_get_set in Hd. cbn in Hd. now inversion Hd; subst v.
    + intros e w4 Htc. rewrite Hrun. cbn [pop]. rewrite Hget.
      apply bind_raises. now apply bind_raises.
Qed.

End SystemConfig.

(** The decode of a complete answer of [/system_config], first without
    and then with a [temp_comp] entry. *)
Lemma system_config_temp_comp_witness :
  (exists obj,
     SystemConfigV2._from_json (entries_as_attrs "TempComp")
       (VDict sample_system_config) idle = (Return obj, idle) /\
     SystemConfigV2.from_json (entries_as_attrs "TempComp")
       (VDict sample_system_config) idle = (Return obj, idle) /\
     getattr obj "temp_comp" = Return VNone)
  /\
  (exists obj,
     SystemConfigV2._from_json (entries_as_attrs "TempComp")
       (VDict (("temp_comp", sample_temp_comp) :: sample_system_config)) idle =
     (Return obj, idle) /\
     SystemConfigV2.from_json (entries_as_attrs "TempComp")
       (VDict (("temp_comp", sample_temp_comp) :: sample_system_config)) idle =
     (Return obj, idle) /\
     getattr obj "temp_comp" =
     Return (VObj "TempComp" [("fet_offset", VInt (-20)); ("gain_up", VInt 70)])).
Proof.
  assert (N : forall d,
             dict_get "sunrise" d = dict_get "sunrise" sample_system_config ->
             dict_get "sunset" d = dict_get "sunset" sample_system_config ->
             dict_get "dyn_light" d = dict_get "dyn_light" sample_system_config ->
             nested_decoded d idle
               (VObj "SystemConfigV2.Time" [("hour", VInt 6); ("minute", VInt 58)])
               (VObj "SystemConfigV2.Time" [("hour", VInt 18); ("minute", VInt 12)])
               (VObj "SystemConfigV2.DynLight"
                  [ ("enable", VBool false); ("phases", VInt 2);
                    ("source", VStr "sun");
                    ("sun_offset",
                     VObj "SystemConfigV2.DynLight.SunOffset"
                       [("day", VInt 0); ("twilight", VInt 0); ("night", VInt 0)]) ])
               idle).
  { intros d H1 H2 H3. unfold nested_decoded.
    eexists _, _, _, idle, idle.
    rewrite H1, H2, H3. repeat split. }
  split.
  - exact (proj1 (system_config_temp_comp (entries_as_attrs "TempComp")
                    sample_system_config idle idle _ _ _
                    (N _ eq_refl eq_refl eq_refl) eq_refl)
                 eq_refl).
  - exact (proj1 (proj2 (system_config_temp_comp (entries_as_attrs "TempComp")
                           (("temp_comp", sample_temp_comp) :: sample_system_config)
                           idle idle _ _ _
                           (N _ eq_refl eq_refl eq_refl) eq_refl)
                        sample_temp_comp eq_refl)
                 _ idle eq_refl).
Defined.

(** ** Decoding sensors *)

Section Sensors.

Lemma declared_declaration (cls : dataclass) (name : string) :
  FromJSON.declared cls name = true ->
  exists default, declaration name (fields cls) = Some default.
Proof.
  unfold FromJSON.declared.
  induction (fields cls) as [|[name' default] fs IH]; simpl; [discriminate|].
  destruct (String.eqb name name'); [now eexists|exact IH].
Qed.

Lemma keys_declared_get (cls : dataclass) (d : dict) (name : string) (v : value) :
  keys_declared cls d = true -> dict_get name d = Some v ->
  FromJSON.declared cls name = true.
Proof.
  unfold keys_declared.
  induction d as [|[k v0] d IH]; simpl; [discriminate|].
  intros H. apply andb_true_iff in H as [H0 H1].
  destruct (String.eqb name k) eqn:E; [|now apply IH].
  apply String.eqb_eq in E. now subst k.
Qed.

(** After [cls(...)] succeeded, every entry of the mapping is a field of
    the instance. *)
Lemma init_getattr_entry (cls : dataclass) (d : dict) (obj : value)
    (name : string) (v : value) :
  FromJSON.init cls d = Return obj -> dict_get name d = Some v ->
  getattr obj name = Return v.
Proof.
  intros Hobj Hget.
  assert (Hk : keys_declared cls d = true).
  { unfold FromJSON.init in Hobj. unfold keys_declared.
    destruct (forallb _ d); [reflexivity|discriminate]. }
  destruct (declared_declaration _ _ (keys_declared_get _ _ _ _ Hk Hget))
    as [default Hdecl].
  destruct (init_getattr _ _ _ _ _ Hobj Hdecl) as (x & Hx & Hd).
  rewrite Hget in Hd. now inversion Hd; subst x.
Qed.

(** C6. [SensorsV2.PIR.from_json] on [None] returns [None] at once:
    nothing is decoded and nothing is logged. On anything else it hands a
    copy of its input to the PIR decode [cls._from_json]: when that
    returns a record, the record is returned and the world is the one the
    decode left; when that raises, the exception is raised again, marked
    as handled, after the failure was logged unless it was marked
    already. On a complete PIR mapping the decode returns a record whose
    fields are the entries of the mapping. *)
Theorem pir_from_json_optional :
  (forall w, SensorsV2.PIR.from_json VNone w = (Return VNone, w))
  /\
  (forall data d w,
     is_None data = false -> copy data = Return d ->
     (forall obj w',
        FromJSON._from_json SensorsV2.PIR.cls d w = (Return obj, w') ->
        SensorsV2.PIR.from_json data w = (Return obj, w'))
     /\
     (forall e w',
        FromJSON._from_json SensorsV2.PIR.cls d w = (Raise e, w') ->
        SensorsV2.PIR.from_json data w =
        (Raise (from_None (mark_handled e)),
         if _handled e then w' else log_append w' (pir_failure data))))
  /\
  (forall d w,
     complete SensorsV2.PIR.cls d = true ->
     exists obj,
       SensorsV2.PIR.from_json (VDict d) w = (Return obj, w) /\
       forall name v, dict_get name d = Some v -> getattr obj name = Return v).
Proof.
  split; [reflexivity|]. split.
  - intros data d w Hnone Hcopy. unfold SensorsV2.PIR.from_json.
    rewrite Hnone, Hcopy, bind_lift_Return. split.
    + intros obj w' H. now apply try_returns.
    + intros e w' H. rewrite (try_raises _ _ _ _ _ H).
      destruct e as [k c [|]]; reflexivity.
  - intros d w Hc. destruct (init_complete _ _ Hc) as [obj Hobj].
    exists obj. split.
    + unfold SensorsV2.PIR.from_json. cbn [is_None copy].
      rewrite bind_lift_Return. apply try_returns.
      cbn [FromJSON._from_json]. unfold lift. now rewrite Hobj.
    + intros name v. now apply (init_getattr_entry SensorsV2.PIR.cls d).
Qed.

(** The loop, entry by entry: it ends normally exactly when every entry
    can be subscripted with ["value"], and then the list holds those
    values, in order; otherwise it raises at the first entry that cannot,
    and the list is left with the entries before it replaced. *)
Lemma unwrap_loop_spec (rest visited : list value) :
  match SensorsV2.unwrap_loop visited rest with
  | (Return _, l') =>
      exists xs,
        Forall2 (fun out x => getitem out (VStr "value") = Return x) rest xs /\
        l' = (visited ++ xs)%list
  | (Raise e, l') =>
      exists pre xs out post,
        rest = (pre ++ out :: post)%list /\
        Forall2 (fun out x => getitem out (VStr "value") = Return x) pre xs /\
        getitem out (VStr "value") = Raise e /\
        l' = (visited ++ xs ++ out :: post)%list
  end.
Proof.
  revert visited. induction rest as [|out rest IH]; intros visited; simpl.
  - exists []. split; [constructor|now rewrite app_nil_r].
  - destruct (getitem out (VStr "value")) as [x|e] eqn:E.
    + specialize (IH (visited ++ [x])%list).
      destruct (SensorsV2.unwrap_loop (visited ++ [x]) rest) as [[[]|e] l'].
      * destruct IH as (xs & HF & ->). exists (x :: xs). split.
        -- now constructor.
        -- now rewrite <- app_assoc.
      * destruct IH as (pre & xs & out' & post & -> & HF & Hout & ->).
        exists (out :: pre), (x :: xs), out', post. repeat split.
        -- now constructor.
        -- exact Hout.
        -- now rewrite <- app_assoc.
    + exists [], [], out, rest. repeat split; [constructor|exact E].
Qed.

Lemma unwrap_wrapped (xs : list value) :
  SensorsV2.unwrap_power_outputs (VList (map wrapped xs)) = Return (VList xs).
Proof.
  unfold SensorsV2.unwrap_power_outputs.
  assert (H : forall visited,
             SensorsV2.unwrap_loop visited (map wrapped xs) = (Return tt, (visited ++ xs)%list)).
  { induction xs as [|x xs IH]; intros visited; simpl.
    - now rewrite app_nil_r.
    - now rewrite IH, <- app_assoc. }
  now rewrite H.
Qed.

Lemma unwrap_shape_mismatch (l : list value) (out : value) :
  In out l -> (forall x, getitem out (VStr "value") <> Return x) ->
  exists e, SensorsV2.unwrap_power_outputs (VList l) = Raise e.
Proof.
  intros Hin Hbad. unfold SensorsV2.unwrap_power_outputs.
  pose proof (unwrap_loop_spec l []) as S.
  destruct (SensorsV2.unwrap_loop [] l) as [[[]|e] l']; [|now exists e].
  destruct S as (xs & HF & _). exfalso.
  induction HF as [|o x l0 xs0 Ho HF IH]; [contradiction|].
  destruct Hin as [->|Hin]; [now apply (Hbad x)|now apply IH].
Qed.

(** The hook up to the point where it has read [power_outputs]. *)
Lemma sensors_hook_head (d : dict) (w w1 : world) (raw pirs po : value) :
  dict_get "pirs" d = Some raw ->
  SensorsV2.PIR.list_from_json raw w = (Return pirs, w1) ->
  dict_get "power_outputs" d = Some po ->
  SensorsV2._from_json (VDict d) w =
  (data <- (if truthy po then
              flat <- try_except
                        (lift (SensorsV2.unwrap_power_outputs po))
                        (fun e =>
                           emit ERROR "failed to handle power outputs" [] ;;;
                           raise e) ;;
              lift (setitem (VDict (dict_set "pirs" pirs d)) "power_outputs" flat)
            else ret (VDict (dict_set "pirs" pirs d))) ;;
   FromJSON._from_json SensorsV2.cls data) w1.
Proof.
  intros G1 D1 G2. unfold SensorsV2._from_json.
  cbn [getitem]. rewrite G1, bind_lift_Return, (bind_returns _ _ _ _ _ D1).
  cbn [setitem]. rewrite bind_lift_Return.
  cbn [getitem]. rewrite dict_get_set. cbn [String.eqb Ascii.eqb Bool.eqb].
  rewrite G2, bind_lift_Return. reflexivity.
Qed.

(** C7. [SensorsV2._from_json] on a mapping whose [pirs] entry decodes.
    A non-empty [power_outputs] list of wrappers [{"value": x}] is
    replaced by the list of the [x], same length and same order, before
    the generic pass runs, so on a complete mapping the decode returns a
    record whose [power_outputs] field is that flat list. If the list has
    an entry that cannot be subscripted with ["value"], the hook logs
    "failed to handle power outputs" and raises: no record is returned. *)
Theorem power_outputs_flattened_or_raise (d : dict) (w w1 : world)
    (raw pirs : value) :
  dict_get "pirs" d = Some raw ->
  SensorsV2.PIR.list_from_json raw w = (Return pirs, w1) ->
  (forall x xs,
     dict_get "power_outputs" d = Some (VList (map wrapped (x :: xs))) ->
     SensorsV2._from_json (VDict d) w =
     FromJSON._from_json SensorsV2.cls
       (VDict (dict_set "power_outputs" (VList (x :: xs))
                 (dict_set "pirs" pirs d))) w1
     /\
     (complete SensorsV2.cls d = true ->
      exists obj,
        SensorsV2._from_json (VDict d) w = (Return obj, w1) /\
        getattr obj "power_outputs" = Return (VList (x :: xs))))
  /\
  (forall l out,
     dict_get "power_outputs" d = Some (VList l) ->
     In out l ->
     (forall x, getitem out (VStr "value") <> Return x) ->
     exists e,
       SensorsV2._from_json (VDict d) w =
       (Raise e,
        log_append w1 (mkLog ERROR "failed to handle power outputs" []))).
Proof.
  intros G1 D1. split.
  - intros x xs G2.
    assert (E : SensorsV2._from_json (VDict d) w =
                FromJSON._from_json SensorsV2.cls
                  (VDict (dict_set "power_outputs" (VList (x :: xs))
                            (dict_set "pirs" pirs d))) w1).
    { rewrite (sensors_hook_head d w w1 raw pirs _ G1 D1 G2).
      cbn [truthy map].
      change (wrapped x :: map wrapped xs) with (map wrapped (x :: xs)).
      unfold bind at 1. unfold bind at 1. unfold try_except, lift.
      now rewrite unwrap_wrapped. }
    split; [exact E|]. intros Hc.
    assert (Hc' : complete SensorsV2.cls
                    (dict_set "power_outputs" (VList (x :: xs))
                       (dict_set "pirs" pirs d)) = true)
      by now repeat apply complete_dict_set.
    destruct (init_complete _ _ Hc') as [obj Hobj]. exists obj. split.
    + rewrite E. cbn [FromJSON._from_json]. unfold lift. now rewrite Hobj.
    + apply (init_getattr_entry SensorsV2.cls _ _ _ _ Hobj).
      rewrite dict_get_set. reflexivity.
  - intros l out G2 Hin Hbad.
    destruct (unwrap_shape_mismatch l out Hin Hbad) as [e He]. exists e.
    rewrite (sensors_hook_head d w w1 raw pirs _ G1 D1 G2).
    assert (T : truthy (VList l) = true) by (destruct l; [contradiction|reflexivity]).
    rewrite T. apply bind_raises. apply bind_raises.
    unfold try_except, lift. now rewrite He.
Qed.

End Sensors.

(** A PIR mapping that decodes, one that lacks fields, and a complete one. *)
Lemma pir_from_json_optional_witness :
  SensorsV2.PIR.from_json (VDict sample_pir) idle =
  (Return (pir_with_motion false), idle)
  /\
  SensorsV2.PIR.from_json (VDict [("enabled", VBool true)]) idle =
  (Raise (mkExn TypeError None true),
   log_append idle (pir_failure (VDict [("enabled", VBool true)])))
  /\
  (exists obj,
     SensorsV2.PIR.from_json (VDict sample_pir) idle = (Return obj, idle) /\
     forall name v, dict_get name sample_pir = Some v -> getattr obj name = Return v).
Proof.
  split; [|split].
  - exact (proj1 (proj1 (proj2 pir_from_json_optional)
                    (VDict sample_pir) (VDict sample_pir) idle eq_refl eq_refl)
                 (pir_with_motion false) idle eq_refl).
  - exact (proj2 (proj1 (proj2 pir_from_json_optional)
                    (VDict [("enabled", VBool true)])
                    (VDict [("enabled", VBool true)]) idle eq_refl eq_refl)
                 (new_exn TypeError) idle eq_refl).
  - exact (proj2 (proj2 pir_from_json_optional) sample_pir idle eq_refl).
Defined.

(** The decode of a [sensors] mapping with two wrapped power outputs, and
    of one whose second entry has no ["value"]. *)
Lemma power_outputs_flattened_or_raise_witness :
  (exists obj,
     SensorsV2._from_json
       (VDict (sample_sensors
                 (VList [wrapped (VFloat (S754_zero false)); wrapped (VInt 12)])))
       idle = (Return obj, idle) /\
     getattr obj "power_outputs" =
     Return (VList [VFloat (S754_zero false); VInt 12]))
  /\
  (exists e,
     SensorsV2._from_json
       (VDict (sample_sensors
                 (VList [wrapped (VInt 3); VDict [("power", VInt 12)]])))
       idle =
     (Raise e,
      log_append idle (mkLog ERROR "failed to handle power outputs" []))).
Proof.
  split.
  - exact (proj2 (proj1 (power_outputs_flattened_or_raise
                           (sample_sensors
                              (VList [wrapped (VFloat (S754_zero false));
                                      wrapped (VInt 12)]))
                           idle idle (VList [VDict sample_pir; VNone])
                           (VList [pir_with_motion false; VNone])
                           eq_refl eq_refl)
                        (VFloat (S754_zero false)) [VInt 12] eq_refl)
                 eq_refl).
  - exact (proj2 (power_outputs_flattened_or_raise
                    (sample_sensors
                       (VList [wrapped (VInt 3); VDict [("power", VInt 12)]]))
                    idle idle (VList [VDict sample_pir; VNone])
                    (VList [pir_with_motion false; VNone])
                    eq_refl eq_refl)
                 [wrapped (VInt 3); VDict [("power", VInt 12)]]
                 (VDict [("power", VInt 12)])
                 eq_refl (or_intror (or_introl eq_refl))
                 (fun x H => match H in (_ = o)
                                   return (match o with
                                           | Return _ => False
                                           | Raise _ => True
                                           end)
                             with eq_refl => I end)).
Defined.

(** ** Derived properties *)

Section Properties.

(** C8, as stated, fails: a channel with a name and no light
    configuration, which is what the constructor gives when no [light] is
    passed, is available. *)
Lemma available_without_light :
  FromJSON.init DimmerConfigV2.cls
    [("name", VStr "Ceiling"); ("feedback", sample_feedback)] =
  Return dimmer_without_light /\
  getattr dimmer_without_light "name" = Return (VStr "Ceiling") /\
  getattr dimmer_without_light "light" = Return VNone /\
  ~ (DimmerConfigV2.available dimmer_without_light = Return (VBool true) <->
     truthy (VStr "Ceiling") = true /\ is_None VNone = false).
Proof.
  repeat split. intros [H _]. now destruct (H eq_refl).
Qed.

(** C8, amended. [DimmerConfigV2.available] is a function of the [name]
    field alone: it is [bool(self.name)], true exactly when the name is
    true as a Python value (for a string: non-empty), and replacing the
    light configuration does not change it. *)
Theorem available_iff_name (self name : value) :
  getattr self "name" = Return name ->
  DimmerConfigV2.available self = Return (VBool (truthy name)) /\
  (DimmerConfigV2.available self = Return (VBool true) <-> truthy name = true) /\
  (forall s, name = VStr s -> (truthy name = true <-> s <> EmptyString)) /\
  (forall qualname feedback light light',
     DimmerConfigV2.available
       (VObj qualname [("name", name); ("feedback", feedback); ("light", light)]) =
     DimmerConfigV2.available
       (VObj qualname [("name", name); ("feedback", feedback); ("light", light')])).
Proof.
  intros H. unfold DimmerConfigV2.available at 1 2. rewrite H. cbn [and_then].
  split; [reflexivity|]. split; [|split].
  - split; [now intros [= ->]|now intros ->].
  - intros s ->. cbn [truthy]. rewrite negb_true_iff.
    split; intros Hs.
    + intros ->. discriminate.
    + apply String.eqb_neq, Hs.
  - reflexivity.
Qed.

(** C9. [DimmerConfigV2.output] of an instance whose [light] is [None] is
    the boolean [False], the left operand of the [and], not a string;
    with a light configuration it is [light.dimmer.type]. *)
Theorem output_false_without_light (self : value) :
  (getattr self "light" = Return VNone ->
   DimmerConfigV2.output self = Return (VBool false) /\
   forall s, DimmerConfigV2.output self <> Return (VStr s))
  /\
  (forall light dimmer type,
     getattr self "light" = Return light -> is_None light = false ->
     getattr light "dimmer" = Return dimmer ->
     getattr dimmer "type" = Return type ->
     DimmerConfigV2.output self = Return type).
Proof.
  unfold DimmerConfigV2.output. split.
  - intros ->. split; [reflexivity|]. intros s. discriminate.
  - intros light dimmer type -> Hl Hd Ht. cbn [and_then].
    now rewrite Hl, Hd.
Qed.

Lemma list_index_0 (a : value) (l : list value) :
  list_index (a :: l) 0 = Some a.
Proof.
  unfold list_index. cbn [List.length].
  destruct (0 <? Z.of_nat (S (List.length l))) eqn:E; [reflexivity|].
  apply Z.ltb_ge in E. lia.
Qed.

Lemma list_index_1 (a b : value) (l : list value) :
  list_index (a :: b :: l) 1 = Some b.
Proof.
  unfold list_index. cbn [List.length].
  destruct (1 <? Z.of_nat (S (S (List.length l)))) eqn:E; [reflexivity|].
  apply Z.ltb_ge in E. lia.
Qed.

(** C10. [SensorsV2.person_present] when [pirs] has at least two entries:
    the [motion] of [pirs[0]] if that entry is not [None], else the
    [motion] of [pirs[1]] if that one is not [None], else [None]. Two
    instances whose [pirs] agree on the first two entries give the same
    answer: later entries are never read. *)
Theorem person_present_first_two (self pir0 pir1 : value) (others : list value) :
  getattr self "pirs" = Return (VList (pir0 :: pir1 :: others)) ->
  SensorsV2.person_present self =
  (if negb (is_None pir0) then getattr pir0 "motion"
   else if negb (is_None pir1) then getattr pir1 "motion"
   else Return VNone)
  /\
  (forall self' others',
     getattr self' "pirs" = Return (VList (pir0 :: pir1 :: others')) ->
     SensorsV2.person_present self' = SensorsV2.person_present self).
Proof.
  assert (E : forall s l,
             getattr s "pirs" = Return (VList (pir0 :: pir1 :: l)) ->
             SensorsV2.person_present s =
             (if negb (is_None pir0) then getattr pir0 "motion"
              else if negb (is_None pir1) then getattr pir1 "motion"
              else Return VNone)).
  { intros s l H. unfold SensorsV2.person_present. rewrite H.
    cbn [and_then getitem]. rewrite list_index_0, list_index_1.
    reflexivity. }
  intros H. split; [now apply (E self others)|].
  intros self' others' H'. now rewrite (E _ _ H), (E _ _ H').
Qed.

End Properties.

(** The channel without light configuration is available. *)
Lemma available_iff_name_witness :
  DimmerConfigV2.available dimmer_without_light = Return (VBool true) /\
  DimmerConfigV2.available dimmer_with_light =
  DimmerConfigV2.available dimmer_without_light.
Proof.
  split.
  - exact (proj1 (available_iff_name dimmer_without_light (VStr "Ceiling") eq_refl)).
  - exact (proj2 (proj2 (proj2 (available_iff_name dimmer_without_light
                                  (VStr "Ceiling") eq_refl)))
             "DimmerConfigV2" sample_feedback sample_light VNone).
Defined.

(** [output] of the two sample channels. *)
Lemma output_false_without_light_witness :
  DimmerConfigV2.output dimmer_without_light = Return (VBool false) /\
  DimmerConfigV2.output dimmer_with_light = Return (VStr "linear").
Proof.
  split.
  - exact (proj1 (proj1 (output_false_without_light dimmer_without_light) eq_refl)).
  - exact (proj2 (output_false_without_light dimmer_with_light)
             sample_light
             (VObj "DimmerConfigV2.Light.Dimmer"
                [("type", VStr "linear"); ("use_last_value", VBool true)])
             (VStr "linear") eq_refl eq_refl eq_refl eq_refl).
Defined.

(** Slot 0 unknown, slot 1 reporting motion, a third entry that is not
    read. *)
Lemma person_present_first_two_witness :
  SensorsV2.person_present
    (sensors_with_pirs [VNone; pir_with_motion true; pir_with_motion false]) =
  Return (VBool true)
  /\
  SensorsV2.person_present (sensors_with_pirs [VNone; pir_with_motion true]) =
  SensorsV2.person_present
    (sensors_with_pirs [VNone; pir_with_motion true; pir_with_motion false]).
Proof.
  split.
  - exact (proj1 (person_present_first_two
                    (sensors_with_pirs
                       [VNone; pir_with_motion true; pir_with_motion false])
                    VNone (pir_with_motion true) [pir_with_motion false] eq_refl)).
  - exact (proj2 (person_present_first_two
                    (sensors_with_pirs
                       [VNone; pir_with_motion true; pir_with_motion false])
                    VNone (pir_with_motion true) [pir_with_motion false] eq_refl)
                 (sensors_with_pirs [VNone; pir_with_motion true]) [] eq_refl).
Defined.

(** * Further properties of the session *)

Section ReadOperations.

Variable self : DingzSessionV2.t.

(** What [_get] does with the answer of the transport. *)
Lemma get_run (path : string) (w : world) :
  DingzSessionV2._get self path w =
  (match DingzSessionV2.session self (get_request self path) with
   | Return resp =>
       match json resp with
       | Return v => Return v
       | Raise e => Raise (leaving_coroutine e)
       end
   | Raise e => Raise (leaving_coroutine e)
   end,
   sent_append w (get_request self path)).
Proof.
  unfold DingzSessionV2._get, DingzSessionV2.send, coroutine, try_except,
    bind, lift, leaving_coroutine, raise. fold (get_request self path).
  destruct (DingzSessionV2.session self (get_request self path)) as [resp|e].
  - destruct (json resp) as [v|e]; [reflexivity|].
    destruct (exn_kind_eqb (kind e) StopIteration); reflexivity.
  - destruct (exn_kind_eqb (kind e) StopIteration); reflexivity.
Qed.

Lemma get_returns (path : string) (w : world) (st : Z) (v : value) :
  DingzSessionV2.session self (get_request self path) =
    Return (mkResponse st (Return v)) ->
  DingzSessionV2._get self path w = (Return v, sent_append w (get_request self path)).
Proof. intros H. now rewrite get_run, H. Qed.

Variable Device_from_json : value -> M value.

(** [device] on a mapping with at least one entry: the decoder runs on
    the value of the first entry, whatever the number of entries; a
    warning is logged exactly when there is more than one entry, and
    nothing else is logged or sent by [device] itself. *)
Theorem device_first_entry (w : world) (st : Z) (k : string) (v : value)
    (rest : dict) :
  DingzSessionV2.session self (get_request self "/device") =
    Return (mkResponse st (Return (VDict ((k, v) :: rest)))) ->
  DingzSessionV2.device Device_from_json self w =
  coroutine (Device_from_json v)
    (match rest with
     | [] => sent_append w (get_request self "/device")
     | _ :: _ =>
         log_append (sent_append w (get_request self "/device"))
           (mkLog WARNING "received more than one device: "
              [VDict ((k, v) :: rest)])
     end).
Proof.
  intros H. unfold DingzSessionV2.device.
  unfold coroutine at 1. unfold coroutine at 1.
  unfold try_except at 1. unfold try_except at 2.
  rewrite (bind_returns _ _ _ _ _ (get_returns "/device" w st _ H)).
  cbn [len]. rewrite bind_lift_Return.
  destruct rest as [|p rest].
  - reflexivity.
  - assert (L : (1 <? Z.of_nat (List.length ((k, v) :: p :: rest))) = true).
    { apply Z.ltb_lt. cbn [List.length]. lia. }
    rewrite L. reflexivity.
Qed.

(** [device] when there is no mapping to read: a failure of the
    transport or of [resp.json()] reaches the caller as it is; a JSON
    list has no [values] ([AttributeError], after the warning if it has
    more than one item); [null], a number or a boolean has no length
    ([TypeError]). In none of these cases does the decoder run, and only
    the one GET is sent. *)
Theorem device_without_mapping (w : world) :
  (forall e,
     DingzSessionV2.session self (get_request self "/device") = Raise e ->
     DingzSessionV2.device Device_from_json self w =
     (Raise (leaving_coroutine e), sent_append w (get_request self "/device")))
  /\
  (forall st e,
     DingzSessionV2.session self (get_request self "/device") =
       Return (mkResponse st (Raise e)) ->
     DingzSessionV2.device Device_from_json self w =
     (Raise (leaving_coroutine e), sent_append w (get_request self "/device")))
  /\
  (forall st l,
     DingzSessionV2.session self (get_request self "/device") =
       Return (mkResponse st (Return (VList l))) ->
     DingzSessionV2.device Device_from_json self w =
     (Raise (new_exn AttributeError),
      if 1 <? Z.of_nat (List.length l)
      then log_append (sent_append w (get_request self "/device"))
             (mkLog WARNING "received more than one device: " [VList l])
      else sent_append w (get_request self "/device")))
  /\
  (forall st v,
     DingzSessionV2.session self (get_request self "/device") =
       Return (mkResponse st (Return v)) ->
     match v with
     | VNone | VBool _ | VInt _ | VFloat _ => True
     | _ => False
     end ->
     DingzSessionV2.device Device_from_json self w =
     (Raise (new_exn TypeError), sent_append w (get_request self "/device"))).
Proof.
  assert (R : forall e,
             DingzSessionV2._get self "/device" w =
               (Raise (leaving_coroutine e),
                sent_append w (get_request self "/device")) ->
             DingzSessionV2.device Device_from_json self w =
               (Raise (leaving_coroutine e),
                sent_append w (get_request self "/device"))).
  { intros e H. unfold DingzSessionV2.device, coroutine at 1.
    rewrite (try_raises _ _ _ _ _ (bind_raises _ _ _ _ _ H)).
    unfold leaving_coroutine, raise.
    destruct (exn_kind_eqb (kind e) StopIteration) eqn:E; cbn;
      [reflexivity|now rewrite E]. }
  split; [|split; [|split]].
  - intros e H. apply R. now rewrite get_run, H.
  - intros st e H. apply R. now rewrite get_run, H.
  - intros st l H. unfold DingzSessionV2.device.
    unfold coroutine at 1. unfold try_except at 1.
    rewrite (bind_returns _ _ _ _ _ (get_returns "/device" w st _ H)).
    cbn [len]. rewrite bind_lift_Return.
    destruct (1 <? Z.of_nat (List.length l)); reflexivity.
  - intros st v H Hv. unfold DingzSessionV2.device.
    unfold coroutine at 1. unfold try_except at 1.
    rewrite (bind_returns _ _ _ _ _ (get_returns "/device" w st _ H)).
    destruct v; try contradiction; reflexivity.
Qed.

End ReadOperations.

Section WriteOperations.

Variable self : DingzSessionV2.t.

Lemma leaving_coroutine_idem (e : exn) :
  leaving_coroutine (leaving_coroutine e) = leaving_coroutine e.
Proof.
  unfold leaving_coroutine.
  destruct (exn_kind_eqb (kind e) StopIteration) eqn:E; [reflexivity|].
  now rewrite E.
Qed.

Lemma surfacing_idem {A} (o : outcome A) : surfacing (surfacing o) = surfacing o.
Proof. destruct o; simpl; [reflexivity|now rewrite leaving_coroutine_idem]. Qed.

Lemma coroutine_run {A} (body : M A) (w : world) :
  coroutine body w = (surfacing (fst (body w)), snd (body w)).
Proof.
  unfold coroutine, try_except, surfacing, leaving_coroutine, raise.
  destruct (body w) as [[a|e] w']; simpl; [reflexivity|].
  destruct (exn_kind_eqb (kind e) StopIteration); reflexivity.
Qed.

Lemma post_request_after (path : string) (data : list (string * param))
    (w : world) :
  DingzSessionV2.__post_request self path data w =
  (DingzSessionV2.session self (form_request self path data),
   after_post self path data w).
Proof.
  rewrite post_request_run. unfold after_post, post_log, form_request.
  destruct data; reflexivity.
Qed.

Lemma post_plain_run (path : string) (data : list (string * param)) (w : world) :
  DingzSessionV2._post_plain self path data w =
  match DingzSessionV2.session self (form_request self path data) with
  | Return resp =>
      (if 400 <=? status resp then Raise (new_exn ClientError) else Return tt,
       log_append (after_post self path data w) (response_log resp))
  | Raise e => (Raise (leaving_coroutine e), after_post self path data w)
  end.
Proof.
  unfold DingzSessionV2._post_plain. rewrite coroutine_run.
  set (body := bind _ _).
  assert (B : body w =
              match DingzSessionV2.session self (form_request self path data) with
              | Return resp =>
                  (if 400 <=? status resp then Raise (new_exn ClientError)
                   else Return tt,
                   log_append (after_post self path data w) (response_log resp))
              | Raise e => (Raise e, after_post self path data w)
              end).
  { unfold body, bind at 1. rewrite post_request_after.
    destruct (DingzSessionV2.session self _) as [resp|e]; [|reflexivity].
    unfold bind, emit, DingzSessionV2.raise_for_status, raise, ret. cbn.
    destruct (400 <=? status resp); reflexivity. }
  rewrite B. destruct (DingzSessionV2.session self _) as [resp|e]; [|reflexivity].
  destruct (400 <=? status resp); reflexivity.
Qed.

Lemma post_json_run (path : string) (data : list (string * param)) (w : world) :
  DingzSessionV2._post_json self path data w =
  match DingzSessionV2.session self (form_request self path data) with
  | Return resp =>
      (surfacing (json resp),
       log_append (after_post self path data w) (response_log resp))
  | Raise e => (Raise (leaving_coroutine e), after_post self path data w)
  end.
Proof.
  unfold DingzSessionV2._post_json. rewrite coroutine_run.
  set (body := bind _ _).
  assert (B : body w =
              match DingzSessionV2.session self (form_request self path data) with
              | Return resp =>
                  (json resp,
                   log_append (after_post self path data w) (response_log resp))
              | Raise e => (Raise e, after_post self path data w)
              end).
  { unfold body, bind at 1. rewrite post_request_after.
    destruct (DingzSessionV2.session self _) as [resp|e]; reflexivity. }
  rewrite B. destruct (DingzSessionV2.session self _) as [resp|e]; reflexivity.
Qed.

(** A write operation, once its parameters are computed, is one POST:
    [_post_json] for [set_led], [_post_plain] for the others. *)
Lemma perform_run (c : write_call) (path : string)
    (data : list (string * param)) (w : world) :
  call_params c = Return (path, data) ->
  perform self c w =
  coroutine (if is_set_led c
             then DingzSessionV2._post_json self path data ;;; ret tt
             else DingzSessionV2._post_plain self path data) w.
Proof.
  destruct c as [state color|index state v|index position|index|index|index];
    cbn [call_params perform is_set_led].
  - unfold DingzSessionV2.set_led. fold (led_action state).
    destruct color as [[[h s] v]|].
    + destruct (round h) as [H|e] eqn:Hh; [|discriminate].
      destruct (round s) as [S|e] eqn:Hs; [|discriminate].
      destruct (round v) as [V|e] eqn:Hv; [|discriminate].
      cbn [and_then]. intros [= <- <-].
      now rewrite !bind_lift_Return, bind_ret.
    + intros [= <- <-]. now rewrite bind_ret.
  - unfold DingzSessionV2.set_dimmer. destruct v as [x|].
    + destruct (round x) as [n|e] eqn:Hx; [|discriminate].
      cbn [and_then]. intros [= <- <-].
      rewrite bind_lift_Return, !bind_ret. destruct state; reflexivity.
    + intros [= <- <-]. rewrite bind_ret. destruct state; reflexivity.
  - unfold DingzSessionV2.set_blind_position.
    destruct (round position) as [n|e] eqn:Hx; [|discriminate].
    cbn [and_then]. intros [= <- <-]. now rewrite bind_lift_Return.
  - intros [= <- <-]. reflexivity.
  - intros [= <- <-]. reflexivity.
  - intros [= <- <-]. reflexivity.
Qed.

(** How a write operation ends once the transport answered. [set_led]
    reads the body of the answer and never looks at the status: it
    returns whenever [resp.json()] does, and fails when the answer is not
    JSON. Every other write operation checks the status and never reads
    the body: it raises the client error exactly when the status is 400
    or more. Both leave the two debug records and the one request. *)
Theorem write_outcome_after_answer (c : write_call) (path : string)
    (data : list (string * param)) (w : world) (resp : response) :
  call_params c = Return (path, data) ->
  DingzSessionV2.session self (form_request self path data) = Return resp ->
  perform self c w =
  (if is_set_led c then
     match json resp with
     | Return _ => Return tt
     | Raise e => Raise (leaving_coroutine e)
     end
   else if 400 <=? status resp then Raise (new_exn ClientError) else Return tt,
   log_append (after_post self path data w) (response_log resp)).
Proof.
  intros Hc Hs. rewrite (perform_run c path data w Hc), coroutine_run.
  destruct (is_set_led c).
  - unfold bind. rewrite post_json_run, Hs.
    destruct (json resp) as [v|e]; cbn; [reflexivity|].
    now rewrite leaving_coroutine_idem.
  - rewrite post_plain_run, Hs. cbn [fst snd].
    destruct (400 <=? status resp); reflexivity.
Qed.

Lemma round_raises (x : num) (e : exn) :
  round x = Raise e <->
  (x = NFloat S754_nan /\ e = new_exn ValueError) \/
  (exists s, x = NFloat (S754_infinity s) /\ e = new_exn OverflowError).
Proof.
  split.
  - destruct x as [z|[s|s| |s m ex]]; simpl; try discriminate.
    + intros [= <-]. right. now exists s.
    + intros [= <-]. now left.
  - intros [[-> ->]|[s [-> ->]]]; reflexivity.
Qed.

(** A write operation whose numeric argument cannot be rounded does
    nothing: the operation raises the exception of [round], and nothing
    is logged or sent. [round] raises exactly on a NaN, and then
    [ValueError], and on an infinity, and then [OverflowError]. *)
Theorem write_rejects_non_finite (c : write_call) (e : exn) (w : world) :
  call_params c = Raise e ->
  perform self c w = (Raise e, w) /\
  (kind e = ValueError \/ kind e = OverflowError) /\
  (forall x e',
     round x = Raise e' <->
     (x = NFloat S754_nan /\ e' = new_exn ValueError) \/
     (exists s, x = NFloat (S754_infinity s) /\ e' = new_exn OverflowError)).
Proof.
  intros Hc.
  cut (perform self c w = (Raise e, w) /\
       (kind e = ValueError \/ kind e = OverflowError)).
  { intros [H1 H2]. split; [exact H1|]. split; [exact H2|].
    exact round_raises. }
  revert Hc.
  assert (K : forall x e0, round x = Raise e0 ->
                (kind e0 = ValueError \/ kind e0 = OverflowError) /\
                leaving_coroutine e0 = e0).
  { intros x e0 H. apply round_raises in H as [[_ ->]|[s [_ ->]]];
      split; auto. }
  destruct c as [state color|index state v|index position|index|index|index];
    cbn [call_params perform]; try discriminate.
  - destruct color as [[[h s] v]|]; [|discriminate].
    unfold DingzSessionV2.set_led. rewrite coroutine_run.
    destruct (round h) as [H|e0] eqn:Hh.
    + destruct (round s) as [S|e1] eqn:Hs.
      * destruct (round v) as [V|e2] eqn:Hv; [discriminate|].
        cbn [and_then]. intros [= <-]. destruct (K _ _ Hv) as [Hk Hl].
        split; [|exact Hk]. unfold bind, lift. cbn.
        now rewrite Hl.
      * cbn [and_then]. intros [= <-]. destruct (K _ _ Hs) as [Hk Hl].
        split; [|exact Hk]. unfold bind, lift. cbn.
        now rewrite Hl.
    + cbn [and_then]. intros [= <-]. destruct (K _ _ Hh) as [Hk Hl].
      split; [|exact Hk]. unfold bind, lift. cbn.
      now rewrite Hl.
  - destruct v as [x|]; [|discriminate].
    unfold DingzSessionV2.set_dimmer. rewrite coroutine_run.
    destruct (round x) as [n|e0] eqn:Hx; [discriminate|].
    cbn [and_then]. intros [= <-]. destruct (K _ _ Hx) as [Hk Hl].
    split; [|exact Hk]. unfold bind, lift. cbn. now rewrite Hl.
  - unfold DingzSessionV2.set_blind_position. rewrite coroutine_run.
    destruct (round position) as [n|e0] eqn:Hx; [discriminate|].
    cbn [and_then]. intros [= <-]. destruct (K _ _ Hx) as [Hk Hl].
    split; [|exact Hk]. unfold bind, lift. cbn. now rewrite Hl.
Qed.

(** [set_led] normalises the hue: two hues whose rounded values agree
    modulo 360 (a negative one included) give the same run, request for
    request and record for record. *)
Theorem set_led_hue_periodic (state : option bool) (h1 h2 s v : num)
    (H1 H2 : Z) (w : world) :
  round h1 = Return H1 -> round h2 = Return H2 ->
  H1 mod 360 = H2 mod 360 ->
  DingzSessionV2.set_led self state (Some (h1, s, v)) w =
  DingzSessionV2.set_led self state (Some (h2, s, v)) w.
Proof.
  intros E1 E2 Hm. unfold DingzSessionV2.set_led.
  rewrite E1, E2, !bind_lift_Return, Hm. reflexivity.
Qed.

(** Nothing is escaped: a value that contains [&key=value] reaches the
    transport exactly as if that were a further parameter. *)
Theorem post_body_not_escaped (path k v k' v' : string)
    (rest : list (string * param)) (w : world) :
  DingzSessionV2.__post_request self path
    ((k, PStr (v ++ "&" ++ k' ++ "=" ++ v')) :: rest) w =
  DingzSessionV2.__post_request self path
    ((k, PStr v) :: (k', PStr v') :: rest) w.
Proof.
  assert (E : form_pairs ((k, PStr (v ++ "&" ++ k' ++ "=" ++ v')) :: rest) =
              form_pairs ((k, PStr v) :: (k', PStr v') :: rest)).
  { destruct rest as [|p rest]; cbn [form_pairs format].
    - reflexivity.
    - now rewrite !append_assoc. }
  rewrite !post_request_run. unfold form_request. now rewrite E.
Qed.

End WriteOperations.

(** * Further properties of the sensors decode *)

Section SensorsMore.

(** [SensorsV2.PIR.from_json] on a JSON scalar: a boolean, a number or a
    string has no [copy], so the [AttributeError] is caught at once,
    logged with the input, marked as handled and raised again. *)
Theorem pir_from_json_scalar (data : value) (w : world) :
  is_scalar data = true ->
  SensorsV2.PIR.from_json data w =
  (Raise (mkExn AttributeError None true), log_append w (pir_failure data)).
Proof.
  destruct data; try discriminate; reflexivity.
Qed.

Lemma pir_from_json_returns (raw pir : value) (w w' : world) :
  SensorsV2.PIR.from_json raw w = (Return pir, w') ->
  w' = w /\ is_None pir = is_None raw.
Proof.
  unfold SensorsV2.PIR.from_json.
  destruct raw as [|b|z|f|s|l|d|q a]; cbn [is_None copy];
    try (intros [= <- <-]; now split);
    unfold try_except, bind, lift, raise, emit; cbn; try discriminate.
  unfold FromJSON.init.
  destruct (forallb _ d); [|discriminate].
  destruct (FromJSON.bind_fields _ d); [|discriminate].
  intros [= <- <-]. now split.
Qed.

Lemma map_M_pirs (l l' : list value) (w w' : world) :
  FromJSON.map_M SensorsV2.PIR.from_json l w = (Return l', w') ->
  w' = w /\ Forall2 (fun raw pir => is_None pir = is_None raw) l l'.
Proof.
  revert l' w w'. induction l as [|x l IH]; intros l' w w'; cbn [FromJSON.map_M].
  - intros [= <- <-]. split; [reflexivity|constructor].
  - unfold bind at 1.
    destruct (SensorsV2.PIR.from_json x w) as [[y|e] w1] eqn:E; [|discriminate].
    destruct (pir_from_json_returns _ _ _ _ E) as [-> Hy].
    unfold bind at 1.
    destruct (FromJSON.map_M SensorsV2.PIR.from_json l w) as [[ys|e] w2] eqn:E2;
      [|discriminate].
    destruct (IH _ _ _ E2) as [-> HF].
    intros [= <- <-]. split; [reflexivity|now constructor].
Qed.

(** The [pirs] list keeps its slots: when the list decode that
    [SensorsV2._from_json] starts with returns, the result is a list of
    the same length with [None] exactly where the input has [None], and
    nothing was logged. *)
Theorem pir_list_keeps_slots (l : list value) (v : value) (w w' : world) :
  SensorsV2.PIR.list_from_json (VList l) w = (Return v, w') ->
  exists l',
    v = VList l' /\ w' = w /\
    List.length l' = List.length l /\
    forall i, nth_error l' i = Some VNone <-> nth_error l i = Some VNone.
Proof.
  unfold SensorsV2.PIR.list_from_json, FromJSON.list_from_json, bind at 1.
  destruct (FromJSON.map_M SensorsV2.PIR.from_json l w) as [[l'|e] w1] eqn:E;
    [|discriminate].
  intros [= <- <-]. destruct (map_M_pirs _ _ _ _ E) as [-> HF].
  exists l'. split; [reflexivity|]. split; [reflexivity|]. split.
  - symmetry. exact (Forall2_length HF).
  - clear E. induction HF as [|x y l0 l1 Hxy HF IH]; intros [|i]; cbn.
    + split; discriminate.
    + split; discriminate.
    + split; intros [= ->].
      * destruct x; try discriminate; reflexivity.
      * destruct y; try discriminate; reflexivity.
    + apply IH.
Qed.

(** The loop over [power_outputs] changes the list in place and never
    changes its length. When it raises, it does so at the first entry
    that cannot be subscripted with ["value"]: the entries before it hold
    their values already, that entry and the ones after it are as they
    were, and the exception is a [KeyError] when the entry is a mapping
    and a [TypeError] otherwise. *)
Theorem unwrap_loop_in_place (l : list value) :
  List.length (snd (SensorsV2.unwrap_loop [] l)) = List.length l /\
  forall e,
    fst (SensorsV2.unwrap_loop [] l) = Raise e ->
    exists pre xs out post,
      l = (pre ++ out :: post)%list /\
      Forall2 (fun o x => getitem o (VStr "value") = Return x) pre xs /\
      snd (SensorsV2.unwrap_loop [] l) = (xs ++ out :: post)%list /\
      getitem out (VStr "value") = Raise e /\
      e = new_exn (match out with VDict _ => KeyError | _ => TypeError end).
Proof.
  pose proof (unwrap_loop_spec l []) as S.
  destruct (SensorsV2.unwrap_loop [] l) as [[[]|e] l'] eqn:E; cbn [fst snd].
  - destruct S as (xs & HF & ->). split; [|discriminate].
    symmetry. exact (Forall2_length HF).
  - destruct S as (pre & xs & out & post & -> & HF & Hout & ->). split.
    + cbn [app]. rewrite !length_app. cbn [List.length].
      now rewrite (Forall2_length HF).
    + intros e0 [= <-]. exists pre, xs, out, post. repeat split; auto.
      destruct out as [|b|z|f|s|l0|d|q a]; cbn in Hout;
        try (now inversion Hout).
      destruct (dict_get "value" d); [discriminate|now inversion Hout].
Qed.

(** [SensorsV2._from_json] and a [power_outputs] that is not a non-empty
    list. A false value ([None], an empty list) is left as it is and
    reaches the record unchanged, nothing is logged. A true value that is
    not a list (a number, a string, a mapping) makes the loop raise
    [TypeError], which is logged as "failed to handle power outputs". *)
Theorem power_outputs_kept_or_rejected (d : dict) (w w1 : world)
    (raw pirs po : value) :
  dict_get "pirs" d = Some raw ->
  SensorsV2.PIR.list_from_json raw w = (Return pirs, w1) ->
  dict_get "power_outputs" d = Some po ->
  (truthy po = false ->
   SensorsV2._from_json (VDict d) w =
   FromJSON._from_json SensorsV2.cls (VDict (dict_set "pirs" pirs d)) w1 /\
   (complete SensorsV2.cls d = true ->
    exists obj,
      SensorsV2._from_json (VDict d) w = (Return obj, w1) /\
      getattr obj "power_outputs" = Return po))
  /\
  (truthy po = true -> (forall l, po <> VList l) ->
   SensorsV2._from_json (VDict d) w =
   (Raise (new_exn TypeError),
    log_append w1 (mkLog ERROR "failed to handle power outputs" []))).
Proof.
  intros G1 D1 G2.
  pose proof (sensors_hook_head d w w1 raw pirs po G1 D1 G2) as Hrun.
  split.
  - intros T. rewrite T, bind_ret in Hrun. split; [exact Hrun|].
    intros Hc.
    assert (Hc' : complete SensorsV2.cls (dict_set "pirs" pirs d) = true)
      by now apply complete_dict_set.
    destruct (init_complete _ _ Hc') as [obj Hobj]. exists obj. split.
    + rewrite Hrun. cbn [FromJSON._from_json]. unfold lift. now rewrite Hobj.
    + apply (init_getattr_entry SensorsV2.cls _ _ _ _ Hobj).
      now rewrite dict_get_set.
  - intros T Hl. rewrite Hrun, T.
    destruct po as [|b|z|f|s|l|d0|q a]; try reflexivity.
    now destruct (Hl l).
Qed.

(** The hook reads [pirs] and [power_outputs] with a subscript: a
    mapping without the one or the other is a [KeyError], raised before
    anything is logged by the hook. *)
Theorem sensors_hook_missing_key (d : dict) (w : world) :
  (dict_get "pirs" d = None ->
   SensorsV2._from_json (VDict d) w = (Raise (new_exn KeyError), w))
  /\
  (forall raw pirs w1,
     dict_get "pirs" d = Some raw ->
     SensorsV2.PIR.list_from_json raw w = (Return pirs, w1) ->
     dict_get "power_outputs" d = None ->
     SensorsV2._from_json (VDict d) w = (Raise (new_exn KeyError), w1)).
Proof.
  split.
  - intros G. unfold SensorsV2._from_json. cbn [getitem]. now rewrite G.
  - intros raw pirs w1 G1 D1 G2. unfold SensorsV2._from_json.
    cbn [getitem]. rewrite G1, bind_lift_Return, (bind_returns _ _ _ _ _ D1).
    cbn [setitem]. rewrite bind_lift_Return.
    cbn [getitem]. rewrite dict_get_set. cbn [String.eqb Ascii.eqb Bool.eqb].
    now rewrite G2.
Qed.

(** [SensorsV2.person_present] on a [pirs] list with fewer than two
    entries. An empty list is an [IndexError]. With a single entry the
    answer is its [motion] when it is not [None]; when it is [None] the
    property goes on to [pirs[1]] and raises [IndexError]. *)
Theorem person_present_short_list (self : value) :
  (getattr self "pirs" = Return (VList []) ->
   SensorsV2.person_present self = Raise (new_exn IndexError))
  /\
  (forall pir0,
     getattr self "pirs" = Return (VList [pir0]) ->
     SensorsV2.person_present self =
     if negb (is_None pir0) then getattr pir0 "motion"
     else Raise (new_exn IndexError)).
Proof.
  unfold SensorsV2.person_present. split.
  - now intros ->.
  - intros pir0 ->. cbn [and_then getitem]. rewrite list_index_0.
    cbn [and_then]. destruct (negb (is_None pir0)); reflexivity.
Qed.

End SensorsMore.

(** * Further properties of the configuration and state decodes *)

Section ConfigMore.

Variable TempComp_from_json : value -> M value.

Lemma init_is_instance (cls : dataclass) (d : dict) (obj : value) :
  FromJSON.init cls d = Return obj -> is_None obj = false.
Proof.
  unfold FromJSON.init. destruct (forallb _ d); [|discriminate].
  destruct (FromJSON.bind_fields _ d); [|discriminate].
  now intros [= <-].
Qed.

(** The generic decode of a class without hook returns on a complete
    mapping, with nothing logged. *)
Lemma generic_from_json_returns (cls : dataclass) (d : dict) (obj : value)
    (w : world) :
  FromJSON.init cls d = Return obj ->
  FromJSON.from_json cls (FromJSON._from_json cls) (VDict d) w = (Return obj, w).
Proof.
  intros H. apply from_json_returns. cbn [FromJSON._from_json].
  unfold lift. now rewrite H.
Qed.

(** The hooks read the keys they rewrite with a subscript, so these keys
    must be there even where the field has a default: without [sunrise]
    (and likewise, once the decodes before them returned, without [sunset]
    or [dyn_light]) [SystemConfigV2._from_json] raises [KeyError], although
    the class itself accepts a complete mapping without [sunrise] and
    gives the field [None]. *)
Theorem system_config_needs_nested_keys (d : dict) (w : world) :
  (dict_get "sunrise" d = None ->
   SystemConfigV2._from_json TempComp_from_json (VDict d) w =
   (Raise (new_exn KeyError), w) /\
   (complete SystemConfigV2.cls d = true ->
    exists obj,
      FromJSON.init SystemConfigV2.cls d = Return obj /\
      getattr obj "sunrise" = Return VNone))
  /\
  (forall raw1 sunrise w1,
     dict_get "sunrise" d = Some raw1 ->
     SystemConfigV2.Time.from_json raw1 w = (Return sunrise, w1) ->
     (dict_get "sunset" d = None ->
      SystemConfigV2._from_json TempComp_from_json (VDict d) w =
      (Raise (new_exn KeyError), w1))
     /\
     (forall raw2 sunset w2,
        dict_get "sunset" d = Some raw2 ->
        SystemConfigV2.Time.from_json raw2 w1 = (Return sunset, w2) ->
        dict_get "dyn_light" d = None ->
        SystemConfigV2._from_json TempComp_from_json (VDict d) w =
        (Raise (new_exn KeyError), w2))).
Proof.
  split.
  - intros G. split.
    + unfold SystemConfigV2._from_json. cbn [getitem]. now rewrite G.
    + intros Hc. destruct (init_complete _ _ Hc) as [obj Hobj]. exists obj.
      split; [exact Hobj|].
      destruct (init_getattr _ _ _ "sunrise" (Some VNone) Hobj eq_refl)
        as (v & Hv & Hd).
      rewrite G in Hd. now inversion Hd; subst v.
  - intros raw1 sunrise w1 G1 D1. split.
    + intros G2. unfold SystemConfigV2._from_json.
      cbn [getitem]. rewrite G1, bind_lift_Return, (bind_returns _ _ _ _ _ D1).
      cbn [setitem]. rewrite bind_lift_Return.
      cbn [getitem]. rewrite dict_get_set. cbn [String.eqb Ascii.eqb Bool.eqb].
      now rewrite G2.
    + intros raw2 sunset w2 G2 D2 G3. unfold SystemConfigV2._from_json.
      cbn [getitem]. rewrite G1, bind_lift_Return, (bind_returns _ _ _ _ _ D1).
      cbn [setitem]. rewrite bind_lift_Return.
      cbn [getitem]. rewrite dict_get_set. cbn [String.eqb Ascii.eqb Bool.eqb].
      rewrite G2, bind_lift_Return, (bind_returns _ _ _ _ _ D2).
      cbn [setitem]. rewrite bind_lift_Return.
      cbn [getitem]. rewrite !dict_get_set. cbn [String.eqb Ascii.eqb Bool.eqb].
      now rewrite G3.
Qed.

(** The same for the other hooks. [DimmerConfigV2._from_json] needs
    [light], a field with default [None]: on a mapping without it the
    hook raises [KeyError] and logs nothing, although the class itself
    accepts a complete mapping without [light] and builds a channel whose
    [light] is [None] and whose [output] is [False].
    [DimmerConfigV2.Light._from_json] needs [dimmer] and
    [SystemConfigV2.DynLight._from_json] needs [sun_offset] in the same
    way. *)
Theorem hooks_need_their_key (d : dict) (w : world) :
  (dict_get "light" d = None ->
   DimmerConfigV2._from_json (VDict d) w = (Raise (new_exn KeyError), w) /\
   (complete DimmerConfigV2.cls d = true ->
    exists obj,
      FromJSON.init DimmerConfigV2.cls d = Return obj /\
      getattr obj "light" = Return VNone /\
      DimmerConfigV2.output obj = Return (VBool false) /\
      DimmerConfigV2.dimmable obj = Return (VBool false)))
  /\
  (dict_get "dimmer" d = None ->
   DimmerConfigV2.Light._from_json (VDict d) w = (Raise (new_exn KeyError), w))
  /\
  (dict_get "sun_offset" d = None ->
   SystemConfigV2.DynLight._from_json (VDict d) w =
   (Raise (new_exn KeyError), w)).
Proof.
  split; [|split]; intros G.
  - split.
    + unfold DimmerConfigV2._from_json. cbn [getitem]. now rewrite G.
    + intros Hc. destruct (init_complete _ _ Hc) as [obj Hobj]. exists obj.
      split; [exact Hobj|].
      destruct (init_getattr _ _ _ "light" (Some VNone) Hobj eq_refl)
        as (v & Hv & Hd).
      rewrite G in Hd. inversion Hd; subst v.
      unfold DimmerConfigV2.output, DimmerConfigV2.dimmable.
      rewrite Hv. repeat split.
  - unfold DimmerConfigV2.Light._from_json. cbn [getitem]. now rewrite G.
  - unfold SystemConfigV2.DynLight._from_json. cbn [getitem]. now rewrite G.
Qed.

(** Decoding a dimmer channel and reading its properties. On a complete
    mapping whose [light] is a complete light mapping with a complete
    [dimmer], the decode returns an instance and logs nothing; its
    [output] is the [type] of the raw dimmer, its [dimmable] the
    [dimmable] of the raw light, its [available] the truth value of the
    raw name; its [feedback] is the raw mapping, which the hook does not
    decode. *)
Theorem dimmer_config_decoded (d l dm : dict) (w : world)
    (name feedback dimmable type : value) :
  complete DimmerConfigV2.cls d = true ->
  dict_get "name" d = Some name ->
  dict_get "feedback" d = Some feedback ->
  dict_get "light" d = Some (VDict l) ->
  complete DimmerConfigV2.Light.cls l = true ->
  dict_get "dimmable" l = Some dimmable ->
  dict_get "dimmer" l = Some (VDict dm) ->
  complete DimmerConfigV2.Light.Dimmer.cls dm = true ->
  dict_get "type" dm = Some type ->
  exists obj,
    DimmerConfigV2.from_json (VDict d) w = (Return obj, w) /\
    DimmerConfigV2.output obj = Return type /\
    DimmerConfigV2.dimmable obj = Return dimmable /\
    DimmerConfigV2.available obj = Return (VBool (truthy name)) /\
    getattr obj "feedback" = Return feedback.
Proof.
  intros Hc Gn Gf Gl Hcl Gd Gdm Hcdm Gt.
  destruct (init_complete _ _ Hcdm) as [odm Hodm].
  assert (Hcl' : complete DimmerConfigV2.Light.cls (dict_set "dimmer" odm l) = true)
    by now apply complete_dict_set.
  destruct (init_complete _ _ Hcl') as [ol Hol].
  assert (Hc' : complete DimmerConfigV2.cls (dict_set "light" ol d) = true)
    by now apply complete_dict_set.
  destruct (init_complete _ _ Hc') as [obj Hobj].
  assert (Rl : DimmerConfigV2.Light.from_json (VDict l) w = (Return ol, w)).
  { apply from_json_returns. unfold DimmerConfigV2.Light._from_json.
    cbn [getitem]. rewrite Gdm, bind_lift_Return.
    unfold DimmerConfigV2.Light.Dimmer.from_json.
    rewrite (bind_returns _ _ _ _ _ (generic_from_json_returns _ _ _ w Hodm)).
    cbn [setitem]. rewrite bind_lift_Return. cbn [FromJSON._from_json].
    unfold lift. now rewrite Hol. }
  exists obj. split.
  { apply from_json_returns. unfold DimmerConfigV2._from_json.
    cbn [getitem]. rewrite Gl, bind_lift_Return, (bind_returns _ _ _ _ _ Rl).
    cbn [setitem]. rewrite bind_lift_Return. cbn [FromJSON._from_json].
    unfold lift. now rewrite Hobj. }
  assert (Al : getattr obj "light" = Return ol).
  { apply (init_getattr_entry DimmerConfigV2.cls _ _ _ _ Hobj).
    now rewrite dict_get_set. }
  assert (Adm : getattr ol "dimmer" = Return odm).
  { apply (init_getattr_entry DimmerConfigV2.Light.cls _ _ _ _ Hol).
    now rewrite dict_get_set. }
  assert (Nl : is_None ol = false) by exact (init_is_instance _ _ _ Hol).
  repeat split.
  - unfold DimmerConfigV2.output. rewrite Al. cbn [and_then].
    rewrite Nl. cbn [negb]. rewrite Adm. cbn [and_then].
    now apply (init_getattr_entry DimmerConfigV2.Light.Dimmer.cls dm).
  - unfold DimmerConfigV2.dimmable. rewrite Al. cbn [and_then].
    rewrite Nl. cbn [negb].
    apply (init_getattr_entry DimmerConfigV2.Light.cls _ _ _ _ Hol).
    now rewrite dict_get_set.
  - unfold DimmerConfigV2.available.
    rewrite (init_getattr_entry DimmerConfigV2.cls _ _ "name" name Hobj);
      [reflexivity|now rewrite dict_get_set].
  - apply (init_getattr_entry DimmerConfigV2.cls _ _ _ _ Hobj).
    now rewrite dict_get_set.
Qed.

End ConfigMore.

Section StateMore.

Variable Dimmer_list_from_json : value -> M value.
Variable Blind_list_from_json : value -> M value.
Variable LED_from_json : value -> M value.
Variable WiFi_from_json : value -> M value.
Variable Config_from_json : value -> M value.

(** [StateV2._from_json] on a complete mapping whose seven parts decode:
    the decode returns an instance in the world the last decoder left,
    each of the seven fields holds what its decoder returned, and [time],
    which no decoder touches, holds the raw entry or [None] when there is
    none. *)
Theorem state_decoded (d : dict) (w w7 : world)
    (dimmers blinds led sensors thermostat wifi config : value) :
  state_parts_decoded Dimmer_list_from_json Blind_list_from_json
    LED_from_json WiFi_from_json Config_from_json
    d w dimmers blinds led sensors thermostat wifi config w7 ->
  complete StateV2.cls d = true ->
  exists obj,
    (StateV2._from_json Dimmer_list_from_json Blind_list_from_json
       LED_from_json WiFi_from_json Config_from_json (VDict d) w) = (Return obj, w7) /\
    (StateV2.from_json Dimmer_list_from_json Blind_list_from_json
       LED_from_json WiFi_from_json Config_from_json (VDict d) w) = (Return obj, w7) /\
    getattr obj "dimmers" = Return dimmers /\
    getattr obj "blinds" = Return blinds /\
    getattr obj "led" = Return led /\
    getattr obj "sensors" = Return sensors /\
    getattr obj "thermostat" = Return thermostat /\
    getattr obj "wifi" = Return wifi /\
    getattr obj "config" = Return config /\
    getattr obj "time" =
      Return (match dict_get "time" d with Some t => t | None => VNone end).
Proof.
  intros (r1 & r2 & r3 & r4 & r5 & r6 & r7 & w1 & w2 & w3 & w4 & w5 & w6 &
          G1 & D1 & G2 & D2 & G3 & D3 & G4 & D4 & G5 & D5 & G6 & D6 & G7 & D7) Hc.
  set (d7 := dict_set "config" config
               (dict_set "wifi" wifi
                  (dict_set "thermostat" thermostat
                     (dict_set "sensors" sensors
                        (dict_set "led" led
                           (dict_set "blinds" blinds
                              (dict_set "dimmers" dimmers d))))))).
  assert (Hc7 : complete StateV2.cls d7 = true).
  { unfold d7. now repeat apply complete_dict_set. }
  destruct (init_complete _ _ Hc7) as [obj Hobj]. exists obj.
  assert (E : (StateV2._from_json Dimmer_list_from_json Blind_list_from_json
       LED_from_json WiFi_from_json Config_from_json (VDict d) w) = (Return obj, w7)).
  { unfold StateV2._from_json.
    cbn [getitem]. rewrite G1, bind_lift_Return, (bind_returns _ _ _ _ _ D1).
    cbn [setitem]. rewrite bind_lift_Return.
    cbn [getitem]. rewrite !dict_get_set. cbn [String.eqb Ascii.eqb Bool.eqb].
    rewrite G2, bind_lift_Return, (bind_returns _ _ _ _ _ D2).
    cbn [setitem]. rewrite bind_lift_Return.
    cbn [getitem]. rewrite !dict_get_set. cbn [String.eqb Ascii.eqb Bool.eqb].
    rewrite G3, bind_lift_Return, (bind_returns _ _ _ _ _ D3).
    cbn [setitem]. rewrite bind_lift_Return.
    cbn [getitem]. rewrite !dict_get_set. cbn [String.eqb Ascii.eqb Bool.eqb].
    rewrite G4, bind_lift_Return, (bind_returns _ _ _ _ _ D4).
    cbn [setitem]. rewrite bind_lift_Return.
    cbn [getitem]. rewrite !dict_get_set. cbn [String.eqb Ascii.eqb Bool.eqb].
    rewrite G5, bind_lift_Return, (bind_returns _ _ _ _ _ D5).
    cbn [setitem]. rewrite bind_lift_Return.
    cbn [getitem]. rewrite !dict_get_set. cbn [String.eqb Ascii.eqb Bool.eqb].
    rewrite G6, bind_lift_Return, (bind_returns _ _ _ _ _ D6).
    cbn [setitem]. rewrite bind_lift_Return.
    cbn [getitem]. rewrite !dict_get_set. cbn [String.eqb Ascii.eqb Bool.eqb].
    rewrite G7, bind_lift_Return, (bind_returns _ _ _ _ _ D7).
    cbn [setitem]. rewrite bind_lift_Return.
    cbn [FromJSON._from_json]. fold d7. unfold lift. now rewrite Hobj. }
  split; [exact E|]. split; [now apply from_json_returns|].
  assert (A : forall name v, dict_get name d7 = Some v ->
                getattr obj name = Return v)
    by (intros name v; apply (init_getattr_entry StateV2.cls d7 obj name v Hobj)).
  repeat split; try (apply A; unfold d7; now rewrite !dict_get_set).
  destruct (init_getattr _ _ _ "time" (Some VNone) Hobj eq_refl) as (v & Hv & Hd).
  unfold d7 in Hd. rewrite !dict_get_set in Hd. cbn in Hd.
  rewrite Hv. destruct (dict_get "time" d); now inversion Hd.
Qed.

(** The parts are decoded in the order of the source and the first
    failure ends the decode. A mapping without [dimmers] is a [KeyError]
    with nothing run. When the decoder of [dimmers] raises, the decode
    raises the same exception in the world that decoder left. When the
    first three parts decode and the decode of [sensors] raises, the
    decode raises that exception in the world the sensors decode left:
    the thermostat, wifi and config decoders have not run. *)
Theorem state_fails_at_first_part (d : dict) (w : world) :
  (dict_get "dimmers" d = None ->
   (StateV2._from_json Dimmer_list_from_json Blind_list_from_json
       LED_from_json WiFi_from_json Config_from_json (VDict d) w) =
   (Raise (new_exn KeyError), w))
  /\
  (forall raw e w1,
     dict_get "dimmers" d = Some raw ->
     Dimmer_list_from_json raw w = (Raise e, w1) ->
     (StateV2._from_json Dimmer_list_from_json Blind_list_from_json
       LED_from_json WiFi_from_json Config_from_json (VDict d) w) =
     (Raise e, w1))
  /\
  (forall r1 r2 r3 r4 dimmers blinds led w1 w2 w3 e w4,
     dict_get "dimmers" d = Some r1 ->
     Dimmer_list_from_json r1 w = (Return dimmers, w1) ->
     dict_get "blinds" d = Some r2 ->
     Blind_list_from_json r2 w1 = (Return blinds, w2) ->
     dict_get "led" d = Some r3 ->
     LED_from_json r3 w2 = (Return led, w3) ->
     dict_get "sensors" d = Some r4 ->
     SensorsV2.from_json r4 w3 = (Raise e, w4) ->
     (StateV2._from_json Dimmer_list_from_json Blind_list_from_json
       LED_from_json WiFi_from_json Config_from_json (VDict d) w) =
     (Raise e, w4)).
Proof.
  split; [|split].
  - intros G. unfold StateV2._from_json. cbn [getitem]. now rewrite G.
  - intros raw e w1 G D. unfold StateV2._from_json. cbn [getitem].
    rewrite G, bind_lift_Return. now apply bind_raises.
  - intros r1 r2 r3 r4 dimmers blinds led w1 w2 w3 e w4
           G1 D1 G2 D2 G3 D3 G4 D4.
    unfold StateV2._from_json.
    cbn [getitem]. rewrite G1, bind_lift_Return, (bind_returns _ _ _ _ _ D1).
    cbn [setitem]. rewrite bind_lift_Return.
    cbn [getitem]. rewrite !dict_get_set. cbn [String.eqb Ascii.eqb Bool.eqb].
    rewrite G2, bind_lift_Return, (bind_returns _ _ _ _ _ D2).
    cbn [setitem]. rewrite bind_lift_Return.
    cbn [getitem]. rewrite !dict_get_set. cbn [String.eqb Ascii.eqb Bool.eqb].
    rewrite G3, bind_lift_Return, (bind_returns _ _ _ _ _ D3).
    cbn [setitem]. rewrite bind_lift_Return.
    cbn [getitem]. rewrite !dict_get_set. cbn [String.eqb Ascii.eqb Bool.eqb].
    rewrite G4, bind_lift_Return. now apply bind_raises.
Qed.

End StateMore.

Section ConfigReads.

Variable self : DingzSessionV2.t.
Variable BlindConfig_list_from_json : value -> M value.

Lemma map_M_length (f : value -> M value) (l l' : list value) (w w' : world) :
  FromJSON.map_M f l w = (Return l', w') -> List.length l' = List.length l.
Proof.
  revert l' w w'. induction l as [|x l IH]; intros l' w w'; cbn [FromJSON.map_M].
  - now intros [= <- <-].
  - unfold bind at 1. destruct (f x w) as [[y|e] w1]; [|discriminate].
    unfold bind at 1.
    destruct (FromJSON.map_M f l w1) as [[ys|e] w2] eqn:E; [|discriminate].
    intros [= <- <-]. cbn [List.length]. now rewrite (IH _ _ _ E).
Qed.

(** [dimmer_config] and [blind_config] read the list under [dimmers],
    respectively [blinds], of the answer: an answer that is a mapping
    without that key is a [KeyError], after the one GET and with nothing
    decoded or logged. When [dimmer_config] returns, it returns a list
    with one entry for each entry of the [dimmers] list. *)
Theorem config_lists_need_key (w : world) (st : Z) (d : dict) :
  (DingzSessionV2.session self (get_request self "/dimmer_config") =
     Return (mkResponse st (Return (VDict d))) ->
   (dict_get "dimmers" d = None ->
    DingzSessionV2.dimmer_config self w =
    (Raise (new_exn KeyError),
     sent_append w (get_request self "/dimmer_config")))
   /\
   (forall l v w',
      dict_get "dimmers" d = Some (VList l) ->
      DingzSessionV2.dimmer_config self w = (Return v, w') ->
      exists l', v = VList l' /\ List.length l' = List.length l))
  /\
  (DingzSessionV2.session self (get_request self "/blind_config") =
     Return (mkResponse st (Return (VDict d))) ->
   dict_get "blinds" d = None ->
   DingzSessionV2.blind_config BlindConfig_list_from_json self w =
   (Raise (new_exn KeyError),
    sent_append w (get_request self "/blind_config"))).
Proof.
  split.
  - intros H. split.
    + intros G. unfold DingzSessionV2.dimmer_config.
      rewrite coroutine_run.
      rewrite (bind_returns _ _ _ _ _ (get_returns self "/dimmer_config" w st _ H)).
      cbn [getitem]. now rewrite G.
    + intros l v w' G. unfold DingzSessionV2.dimmer_config.
      rewrite coroutine_run.
      rewrite (bind_returns _ _ _ _ _ (get_returns self "/dimmer_config" w st _ H)).
      cbn [getitem]. rewrite G, bind_lift_Return.
      unfold FromJSON.list_from_json, bind at 1 2.
      destruct (FromJSON.map_M DimmerConfigV2.from_json l _) as [[l'|e] w1] eqn:E;
        cbn; [|discriminate].
      intros [= <- <-]. exists l'. split; [reflexivity|].
      exact (map_M_length _ _ _ _ _ E).
  - intros H G. unfold DingzSessionV2.blind_config.
    rewrite coroutine_run.
    rewrite (bind_returns _ _ _ _ _ (get_returns self "/blind_config" w st _ H)).
    cbn [getitem]. now rewrite G.
Qed.

End ConfigReads.

(** * The further properties on concrete inputs *)

Lemma device_first_entry_witness :
  DingzSessionV2.device (entries_as_attrs "Device")
    (answering (VDict [("F008D1C4A5B6", VDict [("type", VStr "dingz")])])
       "http://dingz.local") idle =
  (Return (VObj "Device" [("type", VStr "dingz")]),
   mkWorld [] [mkRequest GET "http://dingz.local/api/v1/device" None []]).
Proof.
  exact (device_first_entry
           (answering (VDict [("F008D1C4A5B6", VDict [("type", VStr "dingz")])])
              "http://dingz.local")
           (entries_as_attrs "Device") idle 200 "F008D1C4A5B6"
           (VDict [("type", VStr "dingz")]) [] eq_refl).
Defined.

Lemma device_without_mapping_witness :
  DingzSessionV2.device (entries_as_attrs "Device")
    (unreachable "http://dingz.local") idle =
  (Raise (new_exn ClientError),
   mkWorld [] [mkRequest GET "http://dingz.local/api/v1/device" None []])
  /\
  DingzSessionV2.device (entries_as_attrs "Device")
    (answering_with 200 (Raise (new_exn ValueError)) "http://dingz.local") idle =
  (Raise (new_exn ValueError),
   mkWorld [] [mkRequest GET "http://dingz.local/api/v1/device" None []])
  /\
  fst (DingzSessionV2.device (entries_as_attrs "Device")
         (answering (VList [VInt 1; VInt 2]) "http://dingz.local") idle) =
  Raise (new_exn AttributeError)
  /\
  DingzSessionV2.device (entries_as_attrs "Device")
    (answering VNone "http://dingz.local") idle =
  (Raise (new_exn TypeError),
   mkWorld [] [mkRequest GET "http://dingz.local/api/v1/device" None []]).
Proof.
  split; [|split; [|split]].
  - exact (proj1 (device_without_mapping (unreachable "http://dingz.local")
                    (entries_as_attrs "Device") idle)
                 (new_exn ClientError) eq_refl).
  - exact (proj1 (proj2 (device_without_mapping
                           (answering_with 200 (Raise (new_exn ValueError))
                              "http://dingz.local")
                           (entries_as_attrs "Device") idle))
                 200 (new_exn ValueError) eq_refl).
  - exact (f_equal fst
             (proj1 (proj2 (proj2 (device_without_mapping
                                     (answering (VList [VInt 1; VInt 2])
                                        "http://dingz.local")
                                     (entries_as_attrs "Device") idle)))
                    200 [VInt 1; VInt 2] eq_refl)).
  - exact (proj2 (proj2 (proj2 (device_without_mapping
                                  (answering VNone "http://dingz.local")
                                  (entries_as_attrs "Device") idle)))
                 200 VNone eq_refl I).
Defined.

Lemma write_outcome_after_answer_witness :
  fst (DingzSessionV2.set_led
         (answering_with 500 (Return (VDict [])) "http://dingz.local")
         (Some true) None idle) = Return tt
  /\
  fst (DingzSessionV2.set_blind_position
         (answering_with 404 (Return (VDict [])) "http://dingz.local")
         1 (NInt 40) idle) = Raise (new_exn ClientError)
  /\
  fst (DingzSessionV2.blind_up
         (answering_with 200 (Raise (new_exn ValueError)) "http://dingz.local")
         1 idle) = Return tt.
Proof.
  split; [|split].
  - exact (f_equal fst
             (write_outcome_after_answer
                (answering_with 500 (Return (VDict [])) "http://dingz.local")
                (SetLed (Some true) None) _ _ idle
                (mkResponse 500 (Return (VDict []))) eq_refl eq_refl)).
  - exact (f_equal fst
             (write_outcome_after_answer
                (answering_with 404 (Return (VDict [])) "http://dingz.local")
                (SetBlindPosition 1 (NInt 40)) _ _ idle
                (mkResponse 404 (Return (VDict []))) eq_refl eq_refl)).
  - exact (f_equal fst
             (write_outcome_after_answer
                (answering_with 200 (Raise (new_exn ValueError))
                   "http://dingz.local")
                (BlindUp 1) _ _ idle
                (mkResponse 200 (Raise (new_exn ValueError))) eq_refl eq_refl)).
Defined.

Lemma write_rejects_non_finite_witness :
  DingzSessionV2.set_blind_position (answering VNone "http://dingz.local")
    1 (NFloat S754_nan) idle = (Raise (new_exn ValueError), idle)
  /\
  DingzSessionV2.set_dimmer (answering VNone "http://dingz.local")
    1 true (Some (NFloat (S754_infinity false))) idle =
  (Raise (new_exn OverflowError), idle).
Proof.
  split.
  - exact (proj1 (write_rejects_non_finite (answering VNone "http://dingz.local")
                    (SetBlindPosition 1 (NFloat S754_nan))
                    (new_exn ValueError) idle eq_refl)).
  - exact (proj1 (write_rejects_non_finite (answering VNone "http://dingz.local")
                    (SetDimmer 1 true (Some (NFloat (S754_infinity false))))
                    (new_exn OverflowError) idle eq_refl)).
Defined.

Lemma set_led_hue_periodic_witness :
  DingzSessionV2.set_led (answering VNone "http://dingz.local") None
    (Some (NInt (-10), NInt 50, NInt 50)) idle =
  DingzSessionV2.set_led (answering VNone "http://dingz.local") None
    (Some (NInt 350, NInt 50, NInt 50)) idle.
Proof.
  exact (set_led_hue_periodic (answering VNone "http://dingz.local") None
           (NInt (-10)) (NInt 350) (NInt 50) (NInt 50) (-10) 350 idle
           eq_refl eq_refl eq_refl).
Defined.

Lemma pir_from_json_scalar_witness :
  SensorsV2.PIR.from_json (VStr "pir") idle =
  (Raise (mkExn AttributeError None true),
   log_append idle (pir_failure (VStr "pir"))).
Proof. exact (pir_from_json_scalar (VStr "pir") idle eq_refl). Defined.

Lemma pir_list_keeps_slots_witness :
  exists l',
    VList [pir_with_motion false; VNone] = VList l' /\ idle = idle /\
    List.length l' = List.length [VDict sample_pir; VNone] /\
    forall i, nth_error l' i = Some VNone <->
              nth_error [VDict sample_pir; VNone] i = Some VNone.
Proof.
  exact (pir_list_keeps_slots [VDict sample_pir; VNone]
           (VList [pir_with_motion false; VNone]) idle idle eq_refl).
Defined.

Lemma unwrap_loop_in_place_witness :
  exists pre xs out post,
    [wrapped (VInt 3); VInt 12; wrapped (VInt 7)] = (pre ++ out :: post)%list /\
    Forall2 (fun o x => getitem o (VStr "value") = Return x) pre xs /\
    snd (SensorsV2.unwrap_loop [] [wrapped (VInt 3); VInt 12; wrapped (VInt 7)]) =
      (xs ++ out :: post)%list /\
    getitem out (VStr "value") = Raise (new_exn TypeError) /\
    new_exn TypeError =
      new_exn (match out with VDict _ => KeyError | _ => TypeError end).
Proof.
  exact (proj2 (unwrap_loop_in_place
                  [wrapped (VInt 3); VInt 12; wrapped (VInt 7)])
               (new_exn TypeError) eq_refl).
Defined.

Lemma power_outputs_kept_or_rejected_witness :
  (exists obj,
     SensorsV2._from_json (VDict (sample_sensors VNone)) idle = (Return obj, idle) /\
     getattr obj "power_outputs" = Return VNone)
  /\
  SensorsV2._from_json (VDict (sample_sensors (VInt 12))) idle =
  (Raise (new_exn TypeError),
   log_append idle (mkLog ERROR "failed to handle power outputs" [])).
Proof.
  split.
  - exact (proj2 (proj1 (power_outputs_kept_or_rejected
                           (sample_sensors VNone) idle idle
                           (VList [VDict sample_pir; VNone])
                           (VList [pir_with_motion false; VNone]) VNone
                           eq_refl eq_refl eq_refl)
                        eq_refl)
                 eq_refl).
  - exact (proj2 (power_outputs_kept_or_rejected
                    (sample_sensors (VInt 12)) idle idle
                    (VList [VDict sample_pir; VNone])
                    (VList [pir_with_motion false; VNone]) (VInt 12)
                    eq_refl eq_refl eq_refl)
                 eq_refl
                 (fun l H => match H in (_ = v)
                                   return (match v with
                                           | VList _ => False
                                           | _ => True
                                           end)
                             with eq_refl => I end)).
Defined.

Lemma sensors_hook_missing_key_witness :
  SensorsV2._from_json (VDict [("power_outputs", VNone)]) idle =
  (Raise (new_exn KeyError), idle)
  /\
  SensorsV2._from_json (VDict [("pirs", VList [VNone])]) idle =
  (Raise (new_exn KeyError), idle).
Proof.
  split.
  - exact (proj1 (sensors_hook_missing_key [("power_outputs", VNone)] idle)
                 eq_refl).
  - exact (proj2 (sensors_hook_missing_key [("pirs", VList [VNone])] idle)
                 (VList [VNone]) (VList [VNone]) idle eq_refl eq_refl eq_refl).
Defined.

Lemma person_present_short_list_witness :
  SensorsV2.person_present (sensors_with_pirs []) = Raise (new_exn IndexError)
  /\
  SensorsV2.person_present (sensors_with_pirs [pir_with_motion true]) =
  Return (VBool true)
  /\
  SensorsV2.person_present (sensors_with_pirs [VNone]) =
  Raise (new_exn IndexError).
Proof.
  split; [|split].
  - exact (proj1 (person_present_short_list (sensors_with_pirs [])) eq_refl).
  - exact (proj2 (person_present_short_list
                    (sensors_with_pirs [pir_with_motion true]))
                 (pir_with_motion true) eq_refl).
  - exact (proj2 (person_present_short_list (sensors_with_pirs [VNone]))
                 VNone eq_refl).
Defined.

Lemma system_config_needs_nested_keys_witness :
  (SystemConfigV2._from_json (entries_as_attrs "TempComp")
     (VDict (dict_del "sunrise" sample_system_config)) idle =
   (Raise (new_exn KeyError), idle) /\
   exists obj,
     FromJSON.init SystemConfigV2.cls (dict_del "sunrise" sample_system_config) =
     Return obj /\
     getattr obj "sunrise" = Return VNone)
  /\
  SystemConfigV2._from_json (entries_as_attrs "TempComp")
    (VDict (dict_del "sunset" sample_system_config)) idle =
  (Raise (new_exn KeyError), idle)
  /\
  SystemConfigV2._from_json (entries_as_attrs "TempComp")
    (VDict (dict_del "dyn_light" sample_system_config)) idle =
  (Raise (new_exn KeyError), idle).
Proof.
  split; [|split].
  - split.
    + exact (proj1 (proj1 (system_config_needs_nested_keys
                             (entries_as_attrs "TempComp")
                             (dict_del "sunrise" sample_system_config) idle)
                          eq_refl)).
    + exact (proj2 (proj1 (system_config_needs_nested_keys
                             (entries_as_attrs "TempComp")
                             (dict_del "sunrise" sample_system_config) idle)
                          eq_refl)
                   eq_refl).
  - exact (proj1 (proj2 (system_config_needs_nested_keys
                           (entries_as_attrs "TempComp")
                           (dict_del "sunset" sample_system_config) idle)
                        (VDict [("hour", VInt 6); ("minute", VInt 58)])
                        (VObj "SystemConfigV2.Time"
                           [("hour", VInt 6); ("minute", VInt 58)])
                        idle eq_refl eq_refl)
                 eq_refl).
  - exact (proj2 (proj2 (system_config_needs_nested_keys
                           (entries_as_attrs "TempComp")
                           (dict_del "dyn_light" sample_system_config) idle)
                        (VDict [("hour", VInt 6); ("minute", VInt 58)])
                        (VObj "SystemConfigV2.Time"
                           [("hour", VInt 6); ("minute", VInt 58)])
                        idle eq_refl eq_refl)
                 (VDict [("hour", VInt 18); ("minute", VInt 12)])
                 (VObj "SystemConfigV2.Time"
                    [("hour", VInt 18); ("minute", VInt 12)])
                 idle eq_refl eq_refl eq_refl).
Defined.

Lemma hooks_need_their_key_witness :
  (DimmerConfigV2._from_json
     (VDict [("name", VStr "Ceiling"); ("feedback", VNone)]) idle =
   (Raise (new_exn KeyError), idle) /\
   exists obj,
     FromJSON.init DimmerConfigV2.cls
       [("name", VStr "Ceiling"); ("feedback", VNone)] = Return obj /\
     getattr obj "light" = Return VNone /\
     DimmerConfigV2.output obj = Return (VBool false) /\
     DimmerConfigV2.dimmable obj = Return (VBool false))
  /\
  DimmerConfigV2.Light._from_json (VDict [("dimmable", VBool true)]) idle =
  (Raise (new_exn KeyError), idle)
  /\
  SystemConfigV2.DynLight._from_json (VDict [("enable", VBool false)]) idle =
  (Raise (new_exn KeyError), idle).
Proof.
  split; [|split].
  - split.
    + exact (proj1 (proj1 (hooks_need_their_key
                             [("name", VStr "Ceiling"); ("feedback", VNone)] idle)
                          eq_refl)).
    + exact (proj2 (proj1 (hooks_need_their_key
                             [("name", VStr "Ceiling"); ("feedback", VNone)] idle)
                          eq_refl)
                   eq_refl).
  - exact (proj1 (proj2 (hooks_need_their_key [("dimmable", VBool true)] idle))
                 eq_refl).
  - exact (proj2 (proj2 (hooks_need_their_key [("enable", VBool false)] idle))
                 eq_refl).
Defined.

Lemma dimmer_config_decoded_witness :
  exists obj,
    DimmerConfigV2.from_json (VDict sample_dimmer_config) idle = (Return obj, idle) /\
    DimmerConfigV2.output obj = Return (VStr "linear") /\
    DimmerConfigV2.dimmable obj = Return (VBool true) /\
    DimmerConfigV2.available obj = Return (VBool (truthy (VStr "Ceiling"))) /\
    getattr obj "feedback" =
    Return (VDict [("color", VStr "#ff0000"); ("brightness", VInt 50)]).
Proof.
  exact (dimmer_config_decoded sample_dimmer_config
           [ ("dimmable", VBool true);
             ("dimmer",
              VDict [("type", VStr "linear"); ("use_last_value", VBool true)]) ]
           [("type", VStr "linear"); ("use_last_value", VBool true)]
           idle (VStr "Ceiling")
           (VDict [("color", VStr "#ff0000"); ("brightness", VInt 50)])
           (VBool true) (VStr "linear")
           eq_refl eq_refl eq_refl eq_refl eq_refl eq_refl eq_refl eq_refl
           eq_refl).
Defined.

Lemma state_decoded_witness :
  exists obj,
    StateV2._from_json entries_as_list entries_as_list (entries_as_attrs "LED")
      (entries_as_attrs "WiFi") (entries_as_attrs "Config")
      (VDict sample_state) idle = (Return obj, idle) /\
    getattr obj "dimmers" = Return (VList []) /\
    getattr obj "led" = Return (VObj "LED" []) /\
    getattr obj "time" = Return VNone.
Proof.
  set (sensors := match fst (SensorsV2.from_json
                               (VDict (sample_sensors VNone)) idle) with
                  | Return v => v
                  | Raise _ => VNone
                  end).
  set (thermostat := match fst (ThermostatV2.from_json
                                  (VDict sample_thermostat) idle) with
                     | Return v => v
                     | Raise _ => VNone
                     end).
  assert (P : state_parts_decoded entries_as_list entries_as_list
                (entries_as_attrs "LED") (entries_as_attrs "WiFi")
                (entries_as_attrs "Config") sample_state idle
                (VList []) (VList []) (VObj "LED" []) sensors thermostat
                (VObj "WiFi" []) (VObj "Config" []) idle).
  { unfold state_parts_decoded.
    exists (VList []), (VList []), (VDict []), (VDict (sample_sensors VNone)),
      (VDict sample_thermostat), (VDict []), (VDict []),
      idle, idle, idle, idle, idle, idle.
    repeat split. }
  destruct (state_decoded entries_as_list entries_as_list
              (entries_as_attrs "LED") (entries_as_attrs "WiFi")
              (entries_as_attrs "Config") sample_state idle idle
              _ _ _ _ _ _ _ P eq_refl)
    as (obj & E & _ & A1 & _ & A3 & _ & _ & _ & _ & A8).
  exists obj. repeat split; assumption.
Defined.

Lemma state_fails_at_first_part_witness :
  StateV2._from_json entries_as_list entries_as_list (entries_as_attrs "LED")
    (entries_as_attrs "WiFi") (entries_as_attrs "Config")
    (VDict [("blinds", VList [])]) idle = (Raise (new_exn KeyError), idle)
  /\
  StateV2._from_json entries_as_list entries_as_list (entries_as_attrs "LED")
    (entries_as_attrs "WiFi") (entries_as_attrs "Config")
    (VDict [("dimmers", VNone); ("blinds", VList [])]) idle =
  (Raise (new_exn TypeError), idle)
  /\
  fst (StateV2._from_json entries_as_list entries_as_list (entries_as_attrs "LED")
         (entries_as_attrs "WiFi") (entries_as_attrs "Config")
         (VDict [ ("dimmers", VList []); ("blinds", VList []);
                  ("led", VDict []); ("sensors", VDict []) ]) idle) =
  Raise (mkExn KeyError None true).
Proof.
  split; [|split].
  - exact (proj1 (state_fails_at_first_part entries_as_list entries_as_list
                    (entries_as_attrs "LED") (entries_as_attrs "WiFi")
                    (entries_as_attrs "Config")
                    [("blinds", VList [])] idle)
                 eq_refl).
  - exact (proj1 (proj2 (state_fails_at_first_part entries_as_list
                           entries_as_list
                           (entries_as_attrs "LED") (entries_as_attrs "WiFi")
                           (entries_as_attrs "Config")
                           [("dimmers", VNone); ("blinds", VList [])] idle))
                 VNone (new_exn TypeError) idle eq_refl eq_refl).
  - exact (f_equal fst
             (proj2 (proj2 (state_fails_at_first_part entries_as_list
                              entries_as_list
                              (entries_as_attrs "LED") (entries_as_attrs "WiFi")
                              (entries_as_attrs "Config")
                              [ ("dimmers", VList []); ("blinds", VList []);
                                ("led", VDict []); ("sensors", VDict []) ] idle))
                    (VList []) (VList []) (VDict []) (VDict [])
                    (VList []) (VList []) (VObj "LED" []) idle idle idle
                    (mkExn KeyError None true) _
                    eq_refl eq_refl eq_refl eq_refl eq_refl eq_refl eq_refl
                    eq_refl)).
Defined.

Lemma config_lists_need_key_witness :
  DingzSessionV2.dimmer_config (answering (VDict []) "http://dingz.local") idle =
  (Raise (new_exn KeyError),
   mkWorld [] [mkRequest GET "http://dingz.local/api/v1/dimmer_config" None []])
  /\
  (exists l',
     VList [VObj "DimmerConfigV2"
              [ ("name", VStr "Ceiling");
                ("feedback",
                 VDict [("color", VStr "#ff0000"); ("brightness", VInt 50)]);
                ("light", sample_light) ]] = VList l' /\
     List.length l' = List.length [VDict sample_dimmer_config])
  /\
  DingzSessionV2.blind_config entries_as_list
    (answering (VDict []) "http://dingz.local") idle =
  (Raise (new_exn KeyError),
   mkWorld [] [mkRequest GET "http://dingz.local/api/v1/blind_config" None []]).
Proof.
  split; [|split].
  - exact (proj1 (proj1 (config_lists_need_key
                           (answering (VDict []) "http://dingz.local")
                           entries_as_list idle 200 [])
                        eq_refl)
                 eq_refl).
  - exact (proj2 (proj1 (config_lists_need_key
                           (answering
                              (VDict [("dimmers", VList [VDict sample_dimmer_config])])
                              "http://dingz.local")
                           entries_as_list idle 200
                           [("dimmers", VList [VDict sample_dimmer_config])])
                        eq_refl)
                 [VDict sample_dimmer_config] _ _ eq_refl eq_refl).
  - exact (proj2 (config_lists_need_key
                    (answering (VDict []) "http://dingz.local")
                    entries_as_list idle 200 [])
                 eq_refl eq_refl).
Defined.
